(** * The Bedrock geometry viewer: cube placement, UV net and framing

    A shallow embedding of [loadModel] from [src/minecraftviewer/app.js]
    (the copy with per-face UV mapping) and from [src/app.js] (the copy
    without it), from the point where the model JSON has been parsed.  The
    CDN fallbacks of [loadThreeWithFallbacks] and the loop that links bones
    to their parents are embedded after it.

    Numbers are IEEE-754 binary64, as in ECMAScript: the kernel's primitive
    [float] with its round-to-nearest operations; the [uv] arrays hold
    them rounded to single precision, as a [Float32Array] does.  JSON documents are
    dynamically typed values; property access, truthiness, [||] and the
    arithmetic operators follow the ECMAScript rules for those values. *)

From Stdlib Require Import Floats.
From stdpp Require Import gmap strings list pretty.

#[local] Set Warnings "-inexact-float,-register-all".

(** ** ECMAScript values

    What [JSON.parse] can return, plus [undefined] (the result of reading
    a property that is not there).  Objects carry their own properties in a
    finite map; JSON objects have no other state.  A string holds
    the UTF-8 bytes of its text. *)

Inductive value : Type :=
| VUndefined
| VNull
| VBool (b : bool)
| VNum (x : float)
| VStr (s : string)
| VArr (l : list value)
| VObj (o : gmap string value).

Inductive exn : Type :=
| TypeError
| Error (msg : string).

(** ** A state-and-exception monad

    [Throw] keeps the store as it was when the exception was raised: the
    mutations made before a [throw] are not rolled back, which is what a
    [catch] handler (or the caller) observes. *)

Inductive Res (S A : Type) : Type :=
| Ok (a : A) (s : S)
| Throw (e : exn) (s : S).
Arguments Ok {S A} a s.
Arguments Throw {S A} e s.

Definition M (S A : Type) : Type := S -> Res S A.

Definition ret {S A} (a : A) : M S A := fun s => Ok a s.

Definition bind {S A B} (m : M S A) (k : A -> M S B) : M S B :=
  fun s => match m s with
           | Ok a s' => k a s'
           | Throw e s' => Throw e s'
           end.

Definition throw {S A} (e : exn) : M S A := fun s => Throw e s.

Definition get_state {S} : M S S := fun s => Ok s s.

Definition modify {S} (f : S -> S) : M S unit := fun s => Ok tt (f s).

(** [try { body } catch (e) { handler e }] *)
Definition try_catch {S A} (body : M S A) (handler : exn -> M S A) : M S A :=
  fun s => match body s with
           | Ok a s' => Ok a s'
           | Throw e s' => handler e s'
           end.

Declare Scope js_scope.
Delimit Scope js_scope with js.
Notation "x <- m ;; k" := (bind m (fun x => k))
  (at level 100, m at next level, right associativity) : js_scope.
Notation "m ;;; k" := (bind m (fun _ => k))
  (at level 100, right associativity) : js_scope.
Open Scope js_scope.

(** [for (const x of l) body x], over the already materialised elements *)
Fixpoint for_each {S A} (l : list A) (body : A -> M S unit) : M S unit :=
  match l with
  | [] => ret tt
  | x :: l' => body x ;;; for_each l' body
  end.

(** The store after a computation, whether it returned or threw. *)
Definition store_of {S A} (r : Res S A) : S :=
  match r with Ok _ s => s | Throw _ s => s end.


(** ** Operators on values *)

(** ECMAScript ToBoolean *)
Definition truthy (v : value) : bool :=
  match v with
  | VUndefined | VNull => false
  | VBool b => b
  | VNum x => negb ((x =? 0)%float || is_nan x)
  | VStr s => negb (String.eqb s "")
  | VArr _ | VObj _ => true
  end.

(** [a || b] *)
Definition js_or (a b : value) : value := if truthy a then a else b.

(** [Array.isArray(v)] *)
Definition Array_isArray (v : value) : bool :=
  match v with VArr _ => true | _ => false end.

(** ** Strings

    A string holds the UTF-8 bytes of its text, as the JSON file does.
    ECMAScript iterates a string by code points, and indexes and measures
    it by UTF-16 code units. *)

(** A byte that continues a character: [10xxxxxx]. *)
Definition continuation (a : Ascii.ascii) : bool :=
  (128 <=? Ascii.N_of_ascii a)%N && (Ascii.N_of_ascii a <? 192)%N.

(** The code points of a string, each as a string: a byte starts a new one
    unless it is a continuation byte. *)
Fixpoint code_points (s : string) : list string :=
  match s with
  | EmptyString => []
  | String a s' =>
      match code_points s' with
      | String b p :: ps =>
          if continuation b then String a (String b p) :: ps
          else String a EmptyString :: String b p :: ps
      | ps => String a EmptyString :: ps
      end
  end.

(** The three bytes of a code unit from U+0800 to U+FFFF. *)
Definition three_bytes (u : N) : string :=
  String (Ascii.ascii_of_N (224 + N.shiftr u 12))
    (String (Ascii.ascii_of_N (128 + N.land (N.shiftr u 6) 63))
       (String (Ascii.ascii_of_N (128 + N.land u 63)) EmptyString)).

(** The UTF-16 code units of a code point: itself, or the two surrogates
    of a code point that takes four bytes. *)
Definition code_units (p : string) : list string :=
  match p with
  | String b0 (String b1 (String b2 (String b3 EmptyString))) =>
      let cp := (N.shiftl (N.land (Ascii.N_of_ascii b0) 7) 18 +
                 N.shiftl (N.land (Ascii.N_of_ascii b1) 63) 12 +
                 N.shiftl (N.land (Ascii.N_of_ascii b2) 63) 6 +
                 N.land (Ascii.N_of_ascii b3) 63)%N in
      let c := (cp - 65536)%N in
      [three_bytes (55296 + N.shiftr c 10);
       three_bytes (56320 + N.land c 1023)]
  | _ => [p]
  end.

Definition utf16 (s : string) : list string :=
  concat (code_units <$> code_points s).

(** [v.length === n] for an integer literal [n].  Array and string lengths
    are integers below 2^32, exactly representable, so the strict
    comparison of numbers is the comparison of the lengths. *)
Definition length_is (v : value) (n : nat) : bool :=
  match v with
  | VArr l => Nat.eqb (length l) n
  | VStr s => Nat.eqb (length (utf16 s)) n
  | _ => false
  end.

(** What iterating a string visits: its code points, each as a string. *)
Definition chars (s : string) : list value := VStr <$> code_points s.

(** A parameter with a default value takes the default when the argument
    is [undefined]. *)
Definition arg_or_default (v d : value) : value :=
  match v with VUndefined => d | _ => v end.

(** ** The rendering engine's objects

    Only what [loadModel] reads and writes, as three.js 0.154 (the version
    the viewer imports) defines it.  [Vector3.set] and the [BoxGeometry]
    constructor keep their arguments as they are passed. *)

Record Vec3 (A : Type) : Type := mkVec3 { vx : A; vy : A; vz : A }.
Arguments mkVec3 {A} vx vy vz.
Arguments vx {A} v.
Arguments vy {A} v.
Arguments vz {A} v.

(** The position of a new [Object3D], [Mesh] or group. *)
Definition origin3 : Vec3 value := mkVec3 (VNum 0) (VNum 0) (VNum 0).

(** [v.set(x, y, z)]: a [z] that is [undefined] leaves the old one. *)
Definition Vector3_set (v : Vec3 value) (x y z : value) : Vec3 value :=
  mkVec3 x y (match z with VUndefined => vz v | _ => z end).

(** A geometry: the box parameters and the [uv] attribute's array.  A
    [BoxGeometry] always has the attribute; [setFaceUV] can be handed any
    geometry, and [geom.attributes.uv.array] throws when it is missing. *)
Record Geometry : Type := mkGeometry {
  width : value;
  height : value;
  depth : value;
  attributes_uv : option (list float)
}.

(** The UVs a fresh [BoxGeometry] carries: per face the four corners
    (0,1) (1,1) (0,0) (1,0), for the faces +X -X +Y -Y +Z -Z. *)
Definition default_face_uv : list float :=
  [0; 1; 1; 1; 0; 0; 1; 0]%float.

Definition default_uvs : list float :=
  default_face_uv ++ default_face_uv ++ default_face_uv ++
  default_face_uv ++ default_face_uv ++ default_face_uv.

(** [new THREE.BoxGeometry(width = 1, height = 1, depth = 1)] *)
Definition BoxGeometry (sx sy sz : value) : Geometry :=
  {| width := arg_or_default sx (VNum 1);
     height := arg_or_default sy (VNum 1);
     depth := arg_or_default sz (VNum 1);
     attributes_uv := Some default_uvs |}.

Inductive EulerOrder : Type := XYZ | YXZ | ZXY | ZYX | YZX | XZY.

Record Euler : Type := mkEuler {
  ex : float; ey : float; ez : float;
  order : EulerOrder
}.

(** [Euler.DEFAULT_ORDER] *)
Definition default_rotation : Euler := mkEuler 0 0 0 XYZ.

(** [euler.set(x, y, z)] with no fourth argument keeps the order. *)
Definition Euler_set (e : Euler) (x y z : float) : Euler :=
  mkEuler x y z (order e).

(** The mesh of one cube; its material is the same for every cube (the
    shared texture, metalness 0.05, roughness 0.8) and is left out. *)
Record Mesh : Type := mkMesh {
  geometry : Geometry;
  mesh_position : Vec3 value
}.

(** What [simpleRoot.add] receives for a cube: the mesh itself, or an
    [Object3D] group holding it. *)
Inductive Child : Type :=
| BareMesh (m : Mesh)
| Group (group_position : Vec3 value) (group_rotation : Euler) (m : Mesh).

(** The number a [Float32Array] holds after [x] is stored in it: [x]
    rounded to single precision, ties to even, as [Math.fround] gives it.
    Precision 24 and exponent bound 128 are those of binary32. *)
Definition Math_fround (x : float) : float :=
  SF2Prim (match Prim2SF x with
           | S754_finite s m e => SpecFloat.binary_round 24 128 s m e
           | other => other
           end).

Definition Math_PI : float := 0x1.921fb54442d18p+1%float.
Definition DEG2RAD : float := (Math_PI / 180)%float.

(** The two ECMAScript conversions between strings and numbers
    (StringToNumber, Number::toString) are taken as given. *)
Class Builtins : Type := {
  StringToNumber : string -> float;
  NumberToString : float -> string
}.

Section Interp.

Context {builtins : Builtins}.

(** ECMAScript ToString; for an array this is [Array.prototype.join] with
    a comma, where [null] and [undefined] elements print as nothing. *)
Fixpoint ToString (v : value) : string :=
  match v with
  | VUndefined => "undefined"
  | VNull => "null"
  | VBool true => "true"
  | VBool false => "false"
  | VNum x => NumberToString x
  | VStr s => s
  | VArr l =>
      (fix join (l : list value) : string :=
         match l with
         | [] => ""
         | e :: l' =>
             let se := match e with
                       | VUndefined | VNull => ""
                       | _ => ToString e
                       end in
             match l' with
             | [] => se
             | _ :: _ => se +:+ "," +:+ join l'
             end
         end) l
  | VObj _ => "[object Object]"
  end.

(** ECMAScript ToPrimitive: arrays and plain objects have no primitive
    [valueOf], so both hints end in [toString]. *)
Definition ToPrimitive (v : value) : value :=
  match v with
  | VArr _ | VObj _ => VStr (ToString v)
  | _ => v
  end.

(** ECMAScript ToNumber *)
Definition ToNumber (v : value) : float :=
  match v with
  | VUndefined => nan
  | VNull => 0%float
  | VBool true => 1%float
  | VBool false => 0%float
  | VNum x => x
  | VStr s => StringToNumber s
  | VArr _ | VObj _ => StringToNumber (ToString v)
  end.

Definition is_string (v : value) : bool :=
  match v with VStr _ => true | _ => false end.

(** [a + b]: concatenation when either operand is a string after
    ToPrimitive, numeric addition otherwise. *)
Definition js_add (a b : value) : value :=
  let pa := ToPrimitive a in
  let pb := ToPrimitive b in
  if is_string pa || is_string pb
  then VStr (ToString pa +:+ ToString pb)
  else VNum (ToNumber pa + ToNumber pb)%float.

Definition js_sub (a b : value) : value := VNum (ToNumber a - ToNumber b)%float.
Definition js_div (a b : value) : value := VNum (ToNumber a / ToNumber b)%float.

(** ** Property access and iteration *)

(** Reading a property of [undefined] or [null] throws a TypeError. *)
Definition nullish (v : value) : bool :=
  match v with VUndefined | VNull => true | _ => false end.

(** The value of [v.k] on anything else, for the property names the viewer
    reads ([minecraft:geometry], [description], [texture_width], [bones],
    [name], [pivot], [cubes], [origin], [size], [uv], [mirror],
    [rotation], ...): none of them is defined on a built-in prototype, so
    primitives, strings and arrays answer [undefined]. *)
Definition field (v : value) (k : string) : value :=
  match v with
  | VObj o => default VUndefined (o !! k)
  | _ => VUndefined
  end.

(** The value of [v[i]] for an integer literal [i]; a string answers its
    UTF-16 code unit at [i]. *)
Definition item (v : value) (i : nat) : value :=
  match v with
  | VArr l => default VUndefined (l !! i)
  | VStr s => from_option VStr VUndefined (utf16 s !! i)
  | VObj o => default VUndefined (o !! pretty i)
  | _ => VUndefined
  end.

(** [v.k] / [v["k"]] *)
Definition get {S} (v : value) (k : string) : M S value :=
  if nullish v then throw TypeError else ret (field v k).

(** [v[i]] *)
Definition get_index {S} (v : value) (i : nat) : M S value :=
  if nullish v then throw TypeError else ret (item v i).

(** The elements a [for ... of] loop visits: arrays and strings (by code
    points) are iterable; anything else a JSON document can hold is not. *)
Definition iterate {S} (v : value) : M S (list value) :=
  match v with
  | VArr l => ret l
  | VStr s => ret (chars s)
  | _ => throw TypeError
  end.

(** [THREE.MathUtils.degToRad] *)
Definition degToRad (degrees : value) : float :=
  (ToNumber degrees * DEG2RAD)%float.

(** ** Per-face UVs (src/minecraftviewer/app.js, lines 153-175) *)

(** [geom.attributes.uv.array] *)
Definition uv_array : M Geometry (list float) :=
  fun g => match attributes_uv g with
           | Some a => Ok a g
           | None => Throw TypeError g
           end.

(** [uvs[i] = x]: a store into the [Float32Array] of the attribute, which
    keeps the number in single precision; out of range it does nothing. *)
Definition uv_store (i : nat) (x : value) : M Geometry unit :=
  modify (fun g =>
    {| width := width g; height := height g; depth := depth g;
       attributes_uv :=
         (fun a => <[i := Math_fround (ToNumber x)]> a) <$> attributes_uv g |}).

Definition setFaceUV (texW texH : value) (faceIndex : nat)
    (ux uy uw uh : value) (mirror : value) : M Geometry unit :=
  let mirror := arg_or_default mirror (VBool false) in
  let u0 := js_div ux texW in
  let u1 := js_div (js_add ux uw) texW in
  let vTop := js_sub (VNum 1) (js_div uy texH) in
  let vBottom := js_sub (VNum 1) (js_div (js_add uy uh) texH) in
  let iu0 := if truthy mirror then u1 else u0 in
  let iu1 := if truthy mirror then u0 else u1 in
  _ <- uv_array ;;
  let offset := faceIndex * 8 in
  uv_store (offset + 0) iu1 ;;; uv_store (offset + 1) vTop ;;;
  uv_store (offset + 2) iu0 ;;; uv_store (offset + 3) vTop ;;;
  uv_store (offset + 4) iu0 ;;; uv_store (offset + 5) vBottom ;;;
  uv_store (offset + 6) iu1 ;;; uv_store (offset + 7) vBottom.

(** The six calls in the [try] block (lines 187-199); [cube.mirror] is
    read at each call. *)
Definition face_uvs (texW texH cube u v w h d : value) : M Geometry unit :=
  m <- get cube "mirror" ;;
  setFaceUV texW texH 0 (js_add (js_add u d) w) (js_add v d) d h m ;;;
  m <- get cube "mirror" ;;
  setFaceUV texW texH 1 u (js_add v d) d h m ;;;
  m <- get cube "mirror" ;;
  setFaceUV texW texH 2 (js_add u d) v w d m ;;;
  m <- get cube "mirror" ;;
  setFaceUV texW texH 3 (js_add (js_add u d) w) v w d m ;;;
  m <- get cube "mirror" ;;
  setFaceUV texW texH 4 (js_add u d) (js_add v d) w h m ;;;
  m <- get cube "mirror" ;;
  setFaceUV texW texH 5 (js_add (js_add (js_add u d) w) d) (js_add v d) w h m.

(** [try { ... } catch(e) { console.warn(...) }]: the handler only logs. *)
Definition try_face_uvs (texW texH cube u v w h d : value) : M Geometry unit :=
  try_catch (face_uvs texW texH cube u v w h d) (fun _ => ret tt).

(** ** One cube (src/minecraftviewer/app.js, lines 144-223)

    Everything the loop body does for a cube except counting it and adding
    the result to [simpleRoot]: it touches no store of the loader. *)

Definition vec_of_3 (a b c : value) : value := VArr [a; b; c].

(** [const origin = cube.origin || [0,0,0]] *)
Definition cube_origin {S} (cube : value) : M S value :=
  o <- get cube "origin" ;;
  ret (js_or o (vec_of_3 (VNum 0) (VNum 0) (VNum 0))).

(** [const size = cube.size || [1,1,1]] *)
Definition cube_size {S} (cube : value) : M S value :=
  s <- get cube "size" ;;
  ret (js_or s (vec_of_3 (VNum 1) (VNum 1) (VNum 1))).

(** [[origin[0] + sx/2, origin[1] + sy/2, origin[2] + sz/2]] *)
Definition cube_center {S} (origin sx sy sz : value) : M S (Vec3 value) :=
  o0 <- get_index origin 0 ;;
  o1 <- get_index origin 1 ;;
  o2 <- get_index origin 2 ;;
  ret (mkVec3 (js_add o0 (js_div sx (VNum 2)))
              (js_add o1 (js_div sy (VNum 2)))
              (js_add o2 (js_div sz (VNum 2)))).

(** Lines 149-204: the UV block applied to a fresh geometry. *)
Definition apply_uv {S} (texW texH cube sx sy sz : value) (g : Geometry)
    : M S Geometry :=
  cuv <- get cube "uv" ;;
  if Array_isArray cuv && length_is cuv 2 then
    let uvOrigin := cuv in
    u <- get_index uvOrigin 0 ;;
    v <- get_index uvOrigin 1 ;;
    let w := sx in
    let h := sy in
    let d := sz in
    ret (store_of (try_face_uvs texW texH cube u v w h d g))
  else ret g.

(** Lines 209-223: the mesh alone at [center], or inside a group at the
    pivot. *)
Definition place {S} (cube : value) (g : Geometry) (center : Vec3 value)
    : M S Child :=
  pv <- get cube "pivot" ;;
  rt <- get cube "rotation" ;;
  if truthy (js_or pv rt) then
    let cPivot := js_or pv (vec_of_3 (VNum 0) (VNum 0) (VNum 0)) in
    p0 <- get_index cPivot 0 ;;
    p1 <- get_index cPivot 1 ;;
    p2 <- get_index cPivot 2 ;;
    rot <- (if truthy rt then
              let r := rt in
              r0 <- get_index r 0 ;;
              r1 <- get_index r 1 ;;
              r2 <- get_index r 2 ;;
              ret (Euler_set default_rotation
                     (degToRad (js_or r0 (VNum 0)))
                     (degToRad (js_or r1 (VNum 0)))
                     (degToRad (js_or r2 (VNum 0))))
            else ret default_rotation) ;;
    ret (Group (Vector3_set origin3 p0 p1 p2) rot
           (mkMesh g (Vector3_set origin3 (js_sub (vx center) p0)
                                  (js_sub (vy center) p1)
                                  (js_sub (vz center) p2))))
  else
    ret (BareMesh (mkMesh g (Vector3_set origin3 (vx center) (vy center)
                                         (vz center)))).

Definition cube_object {S} (texW texH cube : value) : M S Child :=
  origin <- cube_origin cube ;;
  size <- cube_size cube ;;
  sx <- get_index size 0 ;;
  sy <- get_index size 1 ;;
  sz <- get_index size 2 ;;
  let geometry := BoxGeometry sx sy sz in
  geometry <- apply_uv texW texH cube sx sy sz geometry ;;
  center <- cube_center origin sx sy sz ;;
  place cube geometry center.

(** ** The bone map (lines 113-124)

    A [Map] keeps its keys in insertion order and compares them with
    SameValueZero; setting a key that is present replaces its entry in
    place. *)

Record BoneObj : Type := mkBoneObj {
  bone_name : value;
  bone_position : Vec3 value
}.

Record BoneEntry : Type := mkBoneEntry {
  def : value;
  obj : BoneObj
}.

(** SameValueZero.  Two arrays or objects are the same only when they are
    the same reference, and every [b.name] of the document is a value
    parsed on its own: two of them that are arrays or objects never are. *)
Definition same_value_zero (a b : value) : bool :=
  match a, b with
  | VUndefined, VUndefined => true
  | VNull, VNull => true
  | VBool x, VBool y => Bool.eqb x y
  | VNum x, VNum y => (x =? y)%float || (is_nan x && is_nan y)
  | VStr x, VStr y => String.eqb x y
  | _, _ => false
  end.

Fixpoint Map_set (k : value) (e : BoneEntry) (m : list (value * BoneEntry))
    : list (value * BoneEntry) :=
  match m with
  | [] => [(k, e)]
  | (k', e') :: m' =>
      if same_value_zero k' k then (k', e) :: m'
      else (k', e') :: Map_set k e m'
  end.

Fixpoint collect_bones {S} (items : list value)
    (bones : list (value * BoneEntry)) : M S (list (value * BoneEntry)) :=
  match items with
  | [] => ret bones
  | b :: rest =>
      name <- get b "name" ;;
      pv <- get b "pivot" ;;
      let p := js_or pv (vec_of_3 (VNum 0) (VNum 0) (VNum 0)) in
      p0 <- get_index p 0 ;;
      p1 <- get_index p 1 ;;
      p2 <- get_index p 2 ;;
      let o := mkBoneObj name (Vector3_set origin3 p0 p1 p2) in
      collect_bones rest (Map_set name (mkBoneEntry b o) bones)
  end.

End Interp.

(** ** The scene (lines 227-263)

    [Box3] and its methods [isEmpty], [getSize] and [getCenter],
    [Vector3.sub] and [Math.max] are written out as the engine and
    ECMAScript define them. *)

Record Box3 : Type := mkBox3 { box_min : Vec3 float; box_max : Vec3 float }.

Record Object3D : Type := mkObject3D {
  position : Vec3 float;
  scale : Vec3 float;
  children : list Child
}.

(** [new THREE.Object3D()] *)
Definition new_Object3D : Object3D :=
  mkObject3D (mkVec3 0 0 0)%float (mkVec3 1 1 1)%float [].

(** [new THREE.Box3().setFromObject(root)] computes world matrices and
    transforms vertices inside the engine; it is taken as given. *)
Class Engine : Type := {
  setFromObject : Object3D -> Box3
}.

(** [box.isEmpty()] *)
Definition Box3_isEmpty (b : Box3) : bool :=
  (vx (box_max b) <? vx (box_min b))%float ||
  (vy (box_max b) <? vy (box_min b))%float ||
  (vz (box_max b) <? vz (box_min b))%float.

(** [box.getSize(target)] *)
Definition Box3_getSize (b : Box3) : Vec3 float :=
  if Box3_isEmpty b then (mkVec3 0 0 0)%float
  else (mkVec3 (vx (box_max b) - vx (box_min b))
               (vy (box_max b) - vy (box_min b))
               (vz (box_max b) - vz (box_min b)))%float.

(** [box.getCenter(target)] *)
Definition Box3_getCenter (b : Box3) : Vec3 float :=
  if Box3_isEmpty b then (mkVec3 0 0 0)%float
  else (mkVec3 ((vx (box_min b) + vx (box_max b)) * 0.5)
               ((vy (box_min b) + vy (box_max b)) * 0.5)
               ((vz (box_min b) + vz (box_max b)) * 0.5))%float.

(** [a.sub(b)] *)
Definition Vector3_sub (a b : Vec3 float) : Vec3 float :=
  (mkVec3 (vx a - vx b) (vy a - vy b) (vz a - vz b))%float.

(** One step of [Math.max]: NaN if an argument is NaN, +0 is larger than
    -0, and otherwise the larger of the two. *)
Definition max_step (highest number : float) : float :=
  if is_nan highest || is_nan number then nan
  else if is_zero number && negb (get_sign number) &&
          is_zero highest && get_sign highest then number
  else if (highest <? number)%float then number
  else highest.

(** [Math.max(...args)], starting from minus infinity *)
Definition Math_max (args : list float) : float :=
  fold_left max_step args neg_infinity.

Record Camera : Type := mkCamera {
  camera_position : Vec3 float;
  near : float;
  far : float
}.

(** The loader's store: its two locals that outlive the cube loop, and the
    module-level [scene], [camera] and [controls.target].  The lights, the
    grid and the axes that [bootstrap] puts in the scene are left out. *)
Record View : Type := mkView {
  cubeCount : nat;
  simpleRoot : Object3D;
  scene : list Object3D;
  camera : Camera;
  controls_target : Vec3 float
}.

(** The store [bootstrap] hands to [loadModel] (lines 54-59).  The camera
    is put at (80, 60, 120); [controls.update()] then recomputes the
    position from the orbit around the target (0, 18, 0), which moves x
    and y by one unit in the last place. *)
Definition boot_view : View :=
  mkView 0 new_Object3D []
         (mkCamera (mkVec3 79.99999999999999 60.00000000000001 120)%float
                   0.1%float 5000%float)
         (mkVec3 0 18 0)%float.

Definition with_locals (n : nat) (r : Object3D) (st : View) : View :=
  mkView n r (scene st) (camera st) (controls_target st).

Definition with_root (r : Object3D) (st : View) : View :=
  mkView (cubeCount st) r (scene st) (camera st) (controls_target st).

(** [cubeCount++] *)
Definition count_cube (st : View) : View :=
  mkView (S (cubeCount st)) (simpleRoot st) (scene st) (camera st)
         (controls_target st).

(** [simpleRoot.add(child)] *)
Definition root_add (c : Child) (st : View) : View :=
  with_root (mkObject3D (position (simpleRoot st)) (scale (simpleRoot st))
                        (children (simpleRoot st) ++ [c])) st.

(** [modelRoot.position.sub(center)] *)
Definition root_translate (center : Vec3 float) (st : View) : View :=
  with_root (mkObject3D (Vector3_sub (position (simpleRoot st)) center)
                        (scale (simpleRoot st))
                        (children (simpleRoot st))) st.

(** [modelRoot.scale.setScalar(s)] *)
Definition root_setScalar (s : float) (st : View) : View :=
  with_root (mkObject3D (position (simpleRoot st)) (mkVec3 s s s)
                        (children (simpleRoot st))) st.

(** [scene.add(modelRoot)] *)
Definition scene_add (st : View) : View :=
  mkView (cubeCount st) (simpleRoot st) (scene st ++ [simpleRoot st])
         (camera st) (controls_target st).

Definition set_target (t : Vec3 float) (st : View) : View :=
  mkView (cubeCount st) (simpleRoot st) (scene st) (camera st) t.

Definition set_camera (c : Camera) (st : View) : View :=
  mkView (cubeCount st) (simpleRoot st) (scene st) c (controls_target st).

Section Loader.

Context {builtins : Builtins} {engine : Engine}.

(** Lines 230-263: centre, scale and frame the model. *)
Definition frame : M View unit :=
  st <- get_state ;;
  let modelRoot := simpleRoot st in
  let box := setFromObject modelRoot in
  if negb (Box3_isEmpty box) then
    let size := Box3_getSize box in
    let center := Box3_getCenter box in
    modify (root_translate center) ;;;
    let maxDim := Math_max [vx size; vy size; vz size] in
    (if (0 <? maxDim)%float then
       let desired := 60%float in
       let s := (desired / maxDim)%float in
       modify (root_setScalar s)
     else ret tt) ;;;
    modify scene_add ;;;
    modify (set_target (mkVec3 0 0 0)%float) ;;;
    let dist := (2 * Math_max [vx size; vy size; vz size])%float in
    modify (set_camera
              (mkCamera (mkVec3 (dist * 0.8) (dist * 0.6) (dist * 1.2))%float
                        0.1%float
                        (dist * 10 + 100)%float))
  else
    modify scene_add.

(** Lines 142-224: the body of the cube loop. *)
Definition build_cube (texW texH cube : value) : M View unit :=
  modify count_cube ;;;
  c <- cube_object texW texH cube ;;
  modify (root_add c).

(** Lines 139-225: the cubes of every bone in the map. *)
Definition build_bone (texW texH : value) (entry : value * BoneEntry)
    : M View unit :=
  let b := def (snd entry) in
  cs <- get b "cubes" ;;
  if negb (truthy cs) then ret tt
  else
    cubes <- iterate cs ;;
    for_each cubes (build_cube texW texH).

(** [loadModel] from the parsed document on; [texOk] and [geoOk] are the
    [ok] flags of the two responses (line 95).  The loop of lines 127-134
    links bone objects to their parents; those objects are never added to
    [simpleRoot] or to the scene and linking throws nothing, so it is left
    out. *)
Definition loadModel (texOk geoOk : bool) (geoJson : value) : M View unit :=
  if negb texOk || negb geoOk then throw (Error "Missing files")
  else
    g <- get geoJson "minecraft:geometry" ;;
    geom <- get_index g 0 ;;
    d <- get geom "description" ;;
    let desc := js_or d (VObj ∅) in
    tw <- get desc "texture_width" ;;
    let texW := js_or tw (VNum 64) in
    th <- get desc "texture_height" ;;
    let texH := js_or th (VNum 64) in
    bs <- get geom "bones" ;;
    items <- iterate (js_or bs (VArr [])) ;;
    bones <- collect_bones items [] ;;
    modify (with_locals 0 new_Object3D) ;;;
    for_each bones (build_bone texW texH) ;;;
    frame.

End Loader.

(** ** The copy without per-face UVs (src/app.js)

    The two files are the same text except for lines 148-205 of
    src/minecraftviewer/app.js, which src/app.js does not have: its cube
    loop goes from [new THREE.BoxGeometry] straight to the material. *)

Module Plain.
Section Loader.

Context {builtins : Builtins} {engine : Engine}.

(** src/app.js, lines 144-165 *)
Definition cube_object {S} (cube : value) : M S Child :=
  origin <- cube_origin cube ;;
  size <- cube_size cube ;;
  sx <- get_index size 0 ;;
  sy <- get_index size 1 ;;
  sz <- get_index size 2 ;;
  let geometry := BoxGeometry sx sy sz in
  center <- cube_center origin sx sy sz ;;
  place cube geometry center.

Definition build_cube (cube : value) : M View unit :=
  modify count_cube ;;;
  c <- cube_object cube ;;
  modify (root_add c).

Definition build_bone (entry : value * BoneEntry) : M View unit :=
  let b := def (snd entry) in
  cs <- get b "cubes" ;;
  if negb (truthy cs) then ret tt
  else
    cubes <- iterate cs ;;
    for_each cubes build_cube.

(** src/app.js, lines 89-207; [texW] and [texH] are computed (lines
    110-111) and never used. *)
Definition loadModel (texOk geoOk : bool) (geoJson : value) : M View unit :=
  if negb texOk || negb geoOk then throw (Error "Missing files")
  else
    g <- get geoJson "minecraft:geometry" ;;
    geom <- get_index g 0 ;;
    d <- get geom "description" ;;
    let desc := js_or d (VObj ∅) in
    tw <- get desc "texture_width" ;;
    let texW := js_or tw (VNum 64) in
    th <- get desc "texture_height" ;;
    let texH := js_or th (VNum 64) in
    bs <- get geom "bones" ;;
    items <- iterate (js_or bs (VArr [])) ;;
    bones <- collect_bones items [] ;;
    modify (with_locals 0 new_Object3D) ;;;
    for_each bones build_bone ;;;
    frame.

End Loader.
End Plain.

(** * The rest of the file

    ** Loading the engine (lines 2-29 of either file)

    [loadThreeWithFallbacks] tries three CDNs in turn.  An [await
    import(url)] either gives the namespace object of the module or is
    rejected; what the network answers is a parameter. *)

Record Source : Type := mkSource { three : string; controls : string }.

Definition sources : list Source :=
  [ mkSource "https://unpkg.com/three@0.154.0/build/three.module.js"
             "https://unpkg.com/three@0.154.0/examples/jsm/controls/OrbitControls.js";
    mkSource "https://cdn.jsdelivr.net/npm/three@0.154.0/build/three.module.js"
             "https://cdn.jsdelivr.net/npm/three@0.154.0/examples/jsm/controls/OrbitControls.js";
    mkSource "https://cdn.skypack.dev/three@0.154.0"
             "https://cdn.skypack.dev/three@0.154.0/examples/jsm/controls/OrbitControls.js" ].

(** What a [catch] receives: an error object, or any other value (the code
    of a module can throw anything). *)
Inductive Thrown : Type :=
  | ErrorObject (e : exn)
  | OtherValue (v : value).

(** An error object is truthy. *)
Definition thrown_truthy (t : Thrown) : bool :=
  match t with
  | ErrorObject _ => true
  | OtherValue v => truthy v
  end.

(** [await import(url)]: the exports of the module, or what the import is
    rejected with.  A URL is taken to answer the same each time it is
    asked; the six URLs of [sources] differ, so none is asked twice. *)
Class Network : Type := {
  import : string -> Thrown + gmap string value
}.

(** [{ THREE, OrbitControls }] *)
Record Modules : Type := mkModules {
  THREE : gmap string value;
  OrbitControls : value
}.

(** One [console.warn('Failed to load Three from', src.three, err)]. *)
Definition Warning : Type := (string * Thrown)%type.

Section Fallbacks.

Context {network : Network}.

(** The body of the [try] (lines 20-22).  Destructuring a namespace object
    throws nothing: a missing export is [undefined]. *)
Definition try_source (src : Source) : Thrown + Modules :=
  match import (three src) with
  | inl err => inl err
  | inr THREE =>
      match import (controls src) with
      | inl err => inl err
      | inr m => inr (mkModules THREE (field (VObj m) "OrbitControls"))
      end
  end.

(** [lastErr || new Error('Failed to load Three.js from all CDNs')];
    [lastErr] is [None] while it is [undefined]. *)
Definition or_new_error (lastErr : option Thrown) : Thrown :=
  match lastErr with
  | Some err =>
      if thrown_truthy err then err
      else ErrorObject (Error "Failed to load Three.js from all CDNs")
  | None => ErrorObject (Error "Failed to load Three.js from all CDNs")
  end.

(** The loop of lines 18-27 and the [throw] of line 28: the result, and
    the console with the warnings added. *)
Fixpoint try_sources (srcs : list Source) (lastErr : option Thrown)
    (console : list Warning) : (Thrown + Modules) * list Warning :=
  match srcs with
  | [] => (inl (or_new_error lastErr), console)
  | src :: rest =>
      match try_source src with
      | inr loaded => (inr loaded, console)
      | inl err => try_sources rest (Some err) (console ++ [(three src, err)])
      end
  end.

Definition loadThreeWithFallbacks : (Thrown + Modules) * list Warning :=
  try_sources sources None [].

End Fallbacks.

(** ** Linking bones to their parents (lines 126-134)

    Every entry of the map holds an [Object3D] of its own: an object is
    named by the place of its entry.  The store is the list of the links
    made, each a parent and its child, in the order of the calls. *)

(** [bones.get(k)]: the place of the entry whose key is the same value as
    [k]; [bones.has(k)] tells whether there is one. *)
Fixpoint Map_get (k : value) (m : list (value * BoneEntry)) : option nat :=
  match m with
  | [] => None
  | (k', _) :: m' =>
      if same_value_zero k' k then Some 0 else S <$> Map_get k m'
  end.

Definition Map_has (k : value) (m : list (value * BoneEntry)) : bool :=
  match Map_get k m with Some _ => true | None => false end.

(** [parent.add(child)]: an object is not added to itself (the engine
    logs an error); a child that has a parent is taken from it first. *)
Definition Object3D_add (parent child : nat) : M (list (nat * nat)) unit :=
  if Nat.eqb child parent then ret tt
  else modify (fun links =>
                 filter (fun l => l.2 <> child) links ++ [(parent, child)]).

(** The body of the loop for the entry at place [i]. *)
Definition link_bone (bones : list (value * BoneEntry)) (i : nat)
    (entry : value * BoneEntry) : M (list (nat * nat)) unit :=
  parent <- get (def entry.2) "parent" ;;
  if truthy parent && Map_has parent bones then
    match Map_get parent bones with
    | Some p => Object3D_add p i
    | None => throw TypeError
    end
  else ret tt.

Definition link_bones (bones : list (value * BoneEntry))
    : M (list (nat * nat)) unit :=
  for_each (zip (seq 0 (length bones)) bones)
           (fun ie => link_bone bones ie.1 ie.2).

(** * Inputs and expected outputs, as the specification words them *)

(** A cube of the data model: every field optional; the vectors are
    numbers.  [c_uv] is kept as a raw JSON value, since the loader itself
    decides whether it is a UV origin. *)
Record Cube : Type := mkCube {
  c_origin : option (Vec3 float);
  c_size : option (Vec3 float);
  c_pivot : option (Vec3 float);
  c_rotation : option (Vec3 float);
  c_uv : option value;
  c_mirror : option bool
}.

Definition vec3_json (p : Vec3 float) : value :=
  VArr [VNum (vx p); VNum (vy p); VNum (vz p)].

Definition put (k : string) (x : option value) (o : gmap string value)
    : gmap string value :=
  match x with Some v => <[k := v]> o | None => o end.

(** The JSON object of a cube. *)
Definition cube_json (c : Cube) : value :=
  VObj (put "origin" (vec3_json <$> c_origin c)
       (put "size" (vec3_json <$> c_size c)
       (put "pivot" (vec3_json <$> c_pivot c)
       (put "rotation" (vec3_json <$> c_rotation c)
       (put "uv" (c_uv c)
       (put "mirror" (VBool <$> c_mirror c) ∅)))))).

(** Origin and size with their defaults. *)
Definition origin_of (c : Cube) : Vec3 float :=
  default (mkVec3 0 0 0)%float (c_origin c).

Definition size_of (c : Cube) : Vec3 float :=
  default (mkVec3 1 1 1)%float (c_size c).

Definition pivot_of (c : Cube) : Vec3 float :=
  default (mkVec3 0 0 0)%float (c_pivot c).

(** [origin + size/2], axis by axis *)
Definition center_of (c : Cube) : Vec3 float :=
  (mkVec3 (vx (origin_of c) + vx (size_of c) / 2)
          (vy (origin_of c) + vy (size_of c) / 2)
          (vz (origin_of c) + vz (size_of c) / 2))%float.

Definition vec3_values (p : Vec3 float) : Vec3 value :=
  mkVec3 (VNum (vx p)) (VNum (vy p)) (VNum (vz p)).

Definition vec3_minus (a b : Vec3 float) : Vec3 float :=
  (mkVec3 (vx a - vx b) (vy a - vy b) (vz a - vz b))%float.

(** Two numbers that [===] cannot tell apart, or both NaN (SameValueZero):
    equality of numbers up to the sign of zero. *)
Definition same_number (a b : float) : bool :=
  same_value_zero (VNum a) (VNum b).

(** A texel rectangle of the atlas: its top-left corner and its size. *)
Record Rect : Type := mkRect {
  rect_x : float; rect_y : float; rect_w : float; rect_h : float
}.

(** The Bedrock cube net for UV origin (u,v) and a w x h x d cube, in the
    order +X, -X, +Y, -Y, +Z, -Z. *)
Definition bedrock_net (u v w h d : float) : list Rect :=
  [ mkRect (u + d + w) (v + d) d h;
    mkRect u (v + d) d h;
    mkRect (u + d) v w d;
    mkRect (u + d + w) v w d;
    mkRect (u + d) (v + d) w h;
    mkRect (u + d + w + d) (v + d) w h ]%float.

(** The normalized U range of a rectangle: its left and right edge. *)
Definition u_range (texW : float) (r : Rect) : float * float :=
  (rect_x r / texW, (rect_x r + rect_w r) / texW)%float.

(** The normalized V range of a rectangle at row [y] with height [h2]:
    [1 - (y+h2)/texH, 1 - y/texH]. *)
Definition v_range (texH : float) (r : Rect) : float * float :=
  (1 - (rect_y r + rect_h r) / texH, 1 - rect_y r / texH)%float.

(** The eight numbers of a face with the U range [(ul, ur)] and the V
    range [(vb, vt)], in the order of the four stores of [setFaceUV], which
    the source labels (1,1), (0,1), (0,0), (1,0): right-top, left-top,
    left-bottom, right-bottom. *)
Definition face_quad (ur : float * float) (vr : float * float) : list float :=
  [snd ur; snd vr; fst ur; snd vr; fst ur; fst vr; snd ur; fst vr].

(** The same face with left and right exchanged. *)
Definition flip_u (ur : float * float) : float * float := (snd ur, fst ur).

Definition net_uvs (texW texH : float) (mirror : bool) (net : list Rect)
    : list float :=
  concat (map (fun r =>
                 face_quad (if mirror then flip_u (u_range texW r)
                            else u_range texW r)
                           (v_range texH r)) net).


Definition child_mesh (c : Child) : Mesh :=
  match c with BareMesh m => m | Group _ _ m => m end.

(** Forgetting the texture coordinates of a scene. *)
Definition erase_geometry (g : Geometry) : Geometry :=
  mkGeometry (width g) (height g) (depth g) None.

Definition erase_child (c : Child) : Child :=
  match c with
  | BareMesh m => BareMesh (mkMesh (erase_geometry (geometry m)) (mesh_position m))
  | Group p r m =>
      Group p r (mkMesh (erase_geometry (geometry m)) (mesh_position m))
  end.

Definition erase_root (r : Object3D) : Object3D :=
  mkObject3D (position r) (scale r) (map erase_child (children r)).

Definition erase_view (st : View) : View :=
  mkView (cubeCount st) (erase_root (simpleRoot st))
         (map erase_root (scene st)) (camera st) (controls_target st).

Definition erase_res {A} (r : Res View A) : Res View A :=
  match r with
  | Ok a s => Ok a (erase_view s)
  | Throw e s => Throw e (erase_view s)
  end.

(** ** Instances to run the loader on examples *)

(** Conversions for documents in which no string, array or object reaches
    an arithmetic operator: their answers are never consulted there. *)
Definition numeric_only : Builtins :=
  {| StringToNumber := fun _ => nan; NumberToString := fun _ => "" |}.

Definition fmin (a b : float) : float := if (b <? a)%float then b else a.
Definition fmax (a b : float) : float := if (a <? b)%float then b else a.

Section Flat.

Context {builtins : Builtins}.

(** The extent of one cube when its group, if any, is not rotated. *)
Definition child_extent (c : Child) : Box3 :=
  let m := child_mesh c in
  let at_ := match c with
             | BareMesh _ => (mkVec3 0 0 0)%float
             | Group p _ _ =>
                 mkVec3 (ToNumber (vx p)) (ToNumber (vy p)) (ToNumber (vz p))
             end in
  let cx := (vx at_ + ToNumber (vx (mesh_position m)))%float in
  let cy := (vy at_ + ToNumber (vy (mesh_position m)))%float in
  let cz := (vz at_ + ToNumber (vz (mesh_position m)))%float in
  let hx := (ToNumber (width (geometry m)) / 2)%float in
  let hy := (ToNumber (height (geometry m)) / 2)%float in
  let hz := (ToNumber (depth (geometry m)) / 2)%float in
  (mkBox3 (mkVec3 (cx - hx) (cy - hy) (cz - hz))
          (mkVec3 (cx + hx) (cy + hy) (cz + hz)))%float.

Definition Box3_union (a b : Box3) : Box3 :=
  mkBox3 (mkVec3 (fmin (vx (box_min a)) (vx (box_min b)))
                 (fmin (vy (box_min a)) (vy (box_min b)))
                 (fmin (vz (box_min a)) (vz (box_min b))))
         (mkVec3 (fmax (vx (box_max a)) (vx (box_max b)))
                 (fmax (vy (box_max a)) (vy (box_max b)))
                 (fmax (vz (box_max a)) (vz (box_max b)))).

(** [new THREE.Box3()]: the empty box *)
Definition empty_box : Box3 :=
  mkBox3 (mkVec3 infinity infinity infinity)
         (mkVec3 neg_infinity neg_infinity neg_infinity).

(** The box of a root at its initial position and scale, none of whose
    groups is rotated. *)
Definition flat_box (r : Object3D) : Box3 :=
  fold_left (fun acc c => Box3_union acc (child_extent c)) (children r)
            empty_box.

Definition flat_engine : Engine := {| setFromObject := flat_box |}.

End Flat.

(** The sample engine over the sample conversions. *)
Definition sample_engine : Engine := @flat_engine numeric_only.

(** ** Vocabulary of the statements *)

Definition rotation_of (c : Cube) : Vec3 float :=
  default (mkVec3 0 0 0)%float (c_rotation c).

(** No component is NaN: every number a JSON document can hold. *)
Definition no_nan (p : Vec3 float) : bool :=
  negb (is_nan (vx p) || is_nan (vy p) || is_nan (vz p)).


Definition without_uv (c : Cube) : Cube :=
  mkCube (c_origin c) (c_size c) (c_pivot c) (c_rotation c) None (c_mirror c).


(** The [minecraft:geometry] field is not a non-empty array: it is
    missing, malformed, or an empty array. *)
Definition geometry_unusable (doc : value) : bool :=
  match field doc "minecraft:geometry" with
  | VArr (_ :: _) => false
  | _ => true
  end.

(** The [minecraft:geometry] field is missing or [null], or its element 0
    is: an empty array, an array that starts with [null], a number, a
    boolean, an empty string, an object without a property [0]. *)
Definition no_first_geometry (doc : value) : bool :=
  nullish (field doc "minecraft:geometry") ||
  nullish (item (field doc "minecraft:geometry") 0).

(** Two runs that differ in texture coordinates only. *)
Definition agree {A} (r1 r2 : Res View A) : Prop :=
  erase_res r1 = erase_res r2.

(** What the cube loop leaves alone. *)
Definition framed_like (st0 s : View) : Prop :=
  position (simpleRoot s) = position (simpleRoot st0) /\
  scale (simpleRoot s) = scale (simpleRoot st0) /\
  scene s = scene st0 /\ camera s = camera st0 /\
  controls_target s = controls_target st0.

(** The store in which [frame] finds a freshly built root holding [kids]. *)
Definition with_children (kids : list Child) (st : View) : View :=
  with_root (mkObject3D (mkVec3 0 0 0)%float (mkVec3 1 1 1)%float kids) st.

Section Written.

Context {builtins : Builtins}.

(** The eight numbers the array holds after one call of [setFaceUV]: those
    it computes, in single precision. *)
Definition face_numbers (texW texH : value) (mirror : bool)
    (ux uy uw uh : value) : list float :=
  let u0 := js_div ux texW in
  let u1 := js_div (js_add ux uw) texW in
  let vTop := js_sub (VNum 1) (js_div uy texH) in
  let vBottom := js_sub (VNum 1) (js_div (js_add uy uh) texH) in
  let iu0 := if mirror then u1 else u0 in
  let iu1 := if mirror then u0 else u1 in
  Math_fround <$>
  [ToNumber iu1; ToNumber vTop; ToNumber iu0; ToNumber vTop;
   ToNumber iu0; ToNumber vBottom; ToNumber iu1; ToNumber vBottom].

(** The forty-eight numbers the six calls store. *)
Definition cube_numbers (texW texH : value) (mirror : bool)
    (u v w h d : value) : list float :=
  face_numbers texW texH mirror (js_add (js_add u d) w) (js_add v d) d h ++
  face_numbers texW texH mirror u (js_add v d) d h ++
  face_numbers texW texH mirror (js_add u d) v w d ++
  face_numbers texW texH mirror (js_add (js_add u d) w) v w d ++
  face_numbers texW texH mirror (js_add u d) (js_add v d) w h ++
  face_numbers texW texH mirror (js_add (js_add (js_add u d) w) d)
               (js_add v d) w h.

End Written.

(** ** The scenarios of the specification *)

(** Scenario 1: [origin=[0,0,0]], [size=[2,2,2]], nothing else. *)
Definition scenario_1 : Cube :=
  mkCube (Some (mkVec3 0 0 0)%float) (Some (mkVec3 2 2 2)%float)
         None None None None.

(** Scenario 2: [uv=[0,0]], [size=[1,1,1]], [mirror=false]. *)
Definition scenario_2 : Cube :=
  mkCube None (Some (mkVec3 1 1 1)%float) None None
         (Some (VArr [VNum 0; VNum 0])) (Some false).

(** Scenario 3: [rotation=[0,90,0]], [pivot=[1,1,1]], [origin=[0,0,0]],
    [size=[2,2,2]]. *)
Definition scenario_3 : Cube :=
  mkCube (Some (mkVec3 0 0 0)%float) (Some (mkVec3 2 2 2)%float)
         (Some (mkVec3 1 1 1)%float) (Some (mkVec3 0 90 0)%float)
         None None.

(** A cube whose [uv] is a three-element array. *)
Definition long_uv_cube : Cube :=
  mkCube None (Some (mkVec3 2 2 2)%float) None None
         (Some (VArr [VNum 0; VNum 0; VNum 0])) None.

Definition bone_json (name : string) (cubes : list Cube) : value :=
  VObj (<["name" := VStr name]>
       (<["cubes" := VArr (cube_json <$> cubes)]> ∅)).

(** A document with one geometry, its texture size and its bones. *)
Definition model_json (texW texH : float)
    (bones : list (string * list Cube)) : value :=
  VObj {[ "minecraft:geometry" :=
    VArr [VObj (<["description" :=
                    VObj (<["texture_width" := VNum texW]>
                         (<["texture_height" := VNum texH]> ∅))]>
               (<["bones" :=
                    VArr ((fun b => bone_json b.1 b.2) <$> bones)]> ∅))] ]}.

(** A document whose [minecraft:geometry] is a string. *)
Definition string_geometry_doc : value :=
  VObj {[ "minecraft:geometry" := VStr "x" ]}.

(** A document without the field; one where it is an empty array. *)
Definition no_geometry_doc : value := VObj ∅.

Definition empty_geometry_doc : value :=
  VObj {[ "minecraft:geometry" := VArr [] ]}.


(** The store after the cube loop has built scenario 1. *)
Definition one_cube_view : View :=
  with_children
    [BareMesh (mkMesh (BoxGeometry (VNum 2) (VNum 2) (VNum 2))
                      (vec3_values (mkVec3 1 1 1)%float))]
    boot_view.

(** ** The document as the loader reads it (lines 108-124)

    The part of [loadModel] before the cube loop touches no store; it is
    read here as functions of the document. *)

(** What a [for ... of] loop visits, if the value can be iterated. *)
Definition elements (v : value) : option (list value) :=
  match v with
  | VArr l => Some l
  | VStr s => Some (chars s)
  | _ => None
  end.

(** The map entry of lines 118-123 for a bone that is a value. *)
Definition bone_entry (b : value) : BoneEntry :=
  let p := js_or (field b "pivot") (vec_of_3 (VNum 0) (VNum 0) (VNum 0)) in
  mkBoneEntry b (mkBoneObj (field b "name")
                   (Vector3_set origin3 (item p 0) (item p 1) (item p 2))).

Definition bone_table_from (items : list value)
    (acc : list (value * BoneEntry)) : list (value * BoneEntry) :=
  fold_left (fun m b => Map_set (field b "name") (bone_entry b) m) items acc.

(** The map of lines 114-124 for bones that are values. *)
Definition bone_table (items : list value) : list (value * BoneEntry) :=
  bone_table_from items [].

(** [geoJson['minecraft:geometry'][0]], when reading it throws nothing and
    [geom.description] can be read. *)
Definition first_geometry (doc : value) : option value :=
  if nullish doc then None
  else let g := field doc "minecraft:geometry" in
       if nullish g then None
       else let geom := item g 0 in
            if nullish geom then None else Some geom.

(** [desc.texture_width || 64] and [desc.texture_height || 64] *)
Definition texture_size (geom : value) (k : string) : value :=
  js_or (field (js_or (field geom "description") (VObj ∅)) k) (VNum 64).

(** The bones the first loop visits, when it gets through them: what
    [geom.bones || []] iterates, none of it [null] or [undefined]. *)
Definition bone_items (geom : value) : option (list value) :=
  match elements (js_or (field geom "bones") (VArr [])) with
  | Some items =>
      if forallb (fun b => negb (nullish b)) items then Some items else None
  | None => None
  end.

(** A [cubes] value the cube loop gets through: falsy, or iterable with no
    [null] or [undefined] in it. *)
Definition cubes_load (cs : value) : bool :=
  negb (truthy cs) ||
  match elements cs with
  | Some l => forallb (fun c => negb (nullish c)) l
  | None => false
  end.

(** The documents [loadModel] gets through. *)
Definition loads (doc : value) : bool :=
  match first_geometry doc with
  | Some geom =>
      match bone_items geom with
      | Some items =>
          forallb (fun e => cubes_load (field (def e.2) "cubes"))
                  (bone_table items)
      | None => false
      end
  | None => false
  end.

(** ** Vocabulary of the further statements *)

(** The loader's two locals. *)
Definition same_locals (s t : View) : Prop :=
  cubeCount s = cubeCount t /\ simpleRoot s = simpleRoot t.

(** Two runs that end the same way with the same locals. *)
Definition alike {A} (r1 r2 : Res View A) : Prop :=
  match r1, r2 with
  | Ok a s, Ok b t => a = b /\ same_locals s t
  | Throw e s, Throw e' t => e = e' /\ same_locals s t
  | _, _ => False
  end.

(** Two runs that both return, with the same locals, or both throw the same
    error. *)
Definition same_outcome {A} (r1 r2 : Res View A) : Prop :=
  match r1, r2 with
  | Ok a s, Ok b t => a = b /\ same_locals s t
  | Throw e _, Throw e' _ => e = e'
  | _, _ => False
  end.

(** Every cube counted is a child of the root. *)
Definition counted (s : View) : Prop :=
  cubeCount s = length (children (simpleRoot s)).

(** The store after [kids] have been counted and added to the root. *)
Definition with_more (kids : list Child) (s : View) : View :=
  fold_left (fun s k => root_add k (count_cube s)) kids s.

(** The geometry of a child has a [uv] array of forty-eight numbers. *)
Definition has_48_uvs (c : Child) : Prop :=
  exists uvs, attributes_uv (geometry (child_mesh c)) = Some uvs /\
              length uvs = 48.

(** The geometry of a child has the [uv] array a box is created with. *)
Definition has_default_uvs (c : Child) : Prop :=
  attributes_uv (geometry (child_mesh c)) = Some default_uvs.

(** The object [o] with its property [k] set to [v]. *)
Definition set_field (k : string) (v : value) (o : value) : value :=
  match o with
  | VObj m => VObj (<[k := v]> m)
  | _ => o
  end.

(** Every one of the properties is missing or falsy. *)
Definition all_falsy (v : value) (keys : list string) : bool :=
  forallb (fun k => negb (truthy (field v k))) keys.

(** The place of the bone that the entry at place [i] names as its parent,
    if it names one that is in the map and is not itself. *)
Definition parent_of (bones : list (value * BoneEntry)) (i : nat)
    (entry : value * BoneEntry) : option nat :=
  let parent := field (def entry.2) "parent" in
  if truthy parent then
    match Map_get parent bones with
    | Some p => if Nat.eqb i p then None else Some p
    | None => None
    end
  else None.

(** ** Bones given with their names *)

(** The names in the order in which each comes first. *)
Fixpoint distinct (names : list string) : list string :=
  match names with
  | [] => []
  | n :: rest => n :: filter (fun m => m <> n) (distinct rest)
  end.

(** The cubes of the last bone called [n]. *)
Definition last_cubes (n : string) (bones : list (string * list Cube))
    : list Cube :=
  from_option snd [] (last (filter (fun b => b.1 = n) bones)).

(** The bones that are built: one for each name, at the place where the
    name comes first, with the cubes of the last bone of that name. *)
Definition effective_bones (bones : list (string * list Cube))
    : list (string * list Cube) :=
  (fun n => (n, last_cubes n bones)) <$> distinct bones.*1.

(** [Map.set] on bones given with their names. *)
Fixpoint upsert (n : string) (cs : list Cube) (l : list (string * list Cube))
    : list (string * list Cube) :=
  match l with
  | [] => [(n, cs)]
  | (m, ds) :: r =>
      if String.eqb m n then (m, cs) :: r else (m, ds) :: upsert n cs r
  end.

Definition named_entry (b : string * list Cube) : value * BoneEntry :=
  (VStr b.1, bone_entry (bone_json b.1 b.2)).

(** Documents with one geometry, with or without a description and its
    two sizes. *)
Definition description_json (w h : option float) : value :=
  VObj (put "texture_width" (VNum <$> w) (put "texture_height" (VNum <$> h) ∅)).

Definition geometry_json (description : option (option float * option float))
    (bones : list (string * list Cube)) : value :=
  VObj (put "description"
            ((fun d => description_json d.1 d.2) <$> description)
            (<["bones" := VArr ((fun b => bone_json b.1 b.2) <$> bones)]> ∅)).

Definition document (geom : value) : value :=
  VObj {[ "minecraft:geometry" := VArr [geom] ]}.

(** The texture size a description declares: 64 when it says nothing, or
    zero. *)
Definition declared (x : option float) : float :=
  match x with
  | Some w => if truthy (VNum w) then w else 64%float
  | None => 64%float
  end.

(** ** Further inputs *)

(** A document whose second cube is [null]. *)
Definition null_cube_doc : value :=
  document (VObj {[ "bones" :=
    VArr [VObj {[ "cubes" := VArr [cube_json scenario_1; VNull] ]}] ]}).

(** Three bones, the first and the last of one name. *)
Definition repeated_name_bones : list (string * list Cube) :=
  [("arm", [scenario_1]); ("leg", [scenario_2]); ("arm", [scenario_3])].

(** Three bones: the first names itself as its parent, the second names
    the first, the third a bone that does not exist. *)
Definition linked_bones : list value :=
  [VObj {[ "name" := VStr "body"; "parent" := VStr "body" ]};
   VObj {[ "name" := VStr "head"; "parent" := VStr "body" ]};
   VObj {[ "name" := VStr "hat"; "parent" := VStr "nothing" ]}].

(** The store after the cube loop has built one box of size 2 by 4 by 6. *)
Definition slab_view : View :=
  with_children
    [BareMesh (mkMesh (BoxGeometry (VNum 2) (VNum 4) (VNum 6))
                      (vec3_values (mkVec3 1 2 3)%float))]
    boot_view.

(** A unit cube with [uv = [0, 0]], for a texture of 10 by 10. *)
Definition texture_10_cube : Cube :=
  mkCube None (Some (mkVec3 1 1 1)%float) None None
         (Some (VArr [VNum 0; VNum 0])) None.

(** A document whose only bone has a string of one character, of three
    bytes, as its [cubes]. *)
Definition euro_cubes_doc : value :=
  document (VObj {[ "bones" := VArr [VObj {[ "cubes" := VStr "€" ]}] ]}).

(** An engine that answers a box with a NaN corner, as [Box3] does once a
    position is NaN. *)
Definition nan_box_engine : Engine :=
  {| setFromObject := fun _ =>
       mkBox3 (mkVec3 0 0 nan)%float (mkVec3 1 1 nan)%float |}.

(** A network on which unpkg is down and jsDelivr serves the engine but
    not the controls; strings stand for what the modules export. *)
Definition skypack_only : Network :=
  {| import url :=
       if String.eqb url "https://cdn.skypack.dev/three@0.154.0"
       then inr {[ "REVISION" := VStr "154" ]}
       else if String.eqb url
                 "https://cdn.skypack.dev/three@0.154.0/examples/jsm/controls/OrbitControls.js"
       then inr {[ "OrbitControls" := VStr "class OrbitControls" ]}
       else if String.eqb url
                 "https://cdn.jsdelivr.net/npm/three@0.154.0/build/three.module.js"
       then inr {[ "REVISION" := VStr "154" ]}
       else inl (ErrorObject TypeError) |}.

(** A network on which every import is rejected. *)
Definition offline : Network :=
  {| import url := inl (ErrorObject TypeError) |}.

(** * Facts about binary64 numbers *)

(** Multiplication commutes, NaN and signed zeros included. *)
Lemma float_mul_comm (x y : float) : (x * y = y * x)%float.
Proof.
  apply Prim2SF_inj. rewrite !mul_spec.
  destruct (Prim2SF x) as [sx|sx| |sx mx ex], (Prim2SF y) as [sy|sy| |sy my ey];
    cbn; rewrite ?(xorb_comm sx sy); try reflexivity.
  rewrite (Pos.mul_comm mx my), (Z.add_comm ex ey). reflexivity.
Qed.

(** The two numbers that compare equal to zero. *)
Lemma float_zero_cases (x : float) :
  (x =? 0)%float = true -> x = 0%float \/ x = (-0)%float.
Proof.
  rewrite FloatAxioms.eqb_spec. intros H.
  rewrite <- (SF2Prim_Prim2SF x).
  change (Prim2SF 0) with (S754_zero false) in H.
  destruct (Prim2SF x) as [s|s| |s m e]; cbn in H;
    try discriminate; try (destruct s; discriminate).
  destruct s; [right|left]; reflexivity.
Qed.

(** [0 - c] is [-c] for every [c] but the zeros. *)
Lemma float_sub_zero_opp (c : float) :
  (c =? 0)%float = false -> (0 - c = - c)%float.
Proof.
  intros H. apply Prim2SF_inj. rewrite sub_spec, opp_spec.
  rewrite FloatAxioms.eqb_spec in H.
  change (Prim2SF 0) with (S754_zero false) in *.
  destruct (Prim2SF c) as [s|s| |s m e]; try reflexivity.
  destruct s; discriminate.
Qed.

Lemma same_number_refl x : same_number x x = true.
Proof.
  unfold same_number; cbn. unfold is_nan. destruct (x =? x)%float; reflexivity.
Qed.

(** [0 - c] and [-c] are the same number, up to the sign of zero. *)
Lemma sub_zero_is_negation (c : float) : same_number (0 - c) (- c) = true.
Proof.
  destruct (c =? 0)%float eqn:Hz.
  - destruct (float_zero_cases c Hz) as [-> | ->]; reflexivity.
  - rewrite float_sub_zero_opp by exact Hz. apply same_number_refl.
Qed.

Lemma float_zero_not_pos (x : float) : (x =? 0)%float = true -> (0 <? x)%float = false.
Proof. intros H. destruct (float_zero_cases x H) as [-> | ->]; reflexivity. Qed.

(** ** The order of the numbers

    [<=?] is a preorder on the numbers that are not NaN, and any two of
    them compare. *)

Lemma SFleb_trans x y z : SFleb x y = true -> SFleb y z = true -> SFleb x z = true.
Proof.
  unfold SFleb.
  destruct x as [sx|sx| |sx mx ex], y as [sy|sy| |sy my ey], z as [sz|sz| |sz mz ez];
    cbn; try discriminate; try reflexivity;
    try (destruct sx, sy, sz; cbn; try discriminate; try reflexivity; fail).
  destruct sx, sy, sz; cbn; try discriminate; try reflexivity;
    destruct (Z.compare_spec ex ey), (Z.compare_spec ey ez), (Z.compare_spec ex ez);
      try discriminate; try reflexivity; try lia; subst;
    change (PosDef.Pos.compare_cont Eq) with Pos.compare;
    destruct (Pos.compare_spec mx my), (Pos.compare_spec my mz),
      (Pos.compare_spec mx mz);
      cbn; try discriminate; try reflexivity; lia.
Qed.

Lemma SFleb_total x y :
  x <> S754_nan -> y <> S754_nan -> SFltb x y = false -> SFleb y x = true.
Proof.
  unfold SFleb, SFltb.
  destruct x as [sx|sx| |sx mx ex], y as [sy|sy| |sy my ey];
    cbn; try congruence; try (destruct sx, sy; cbn; congruence);
    try (destruct sx; cbn; congruence); try (destruct sy; cbn; congruence).
  intros _ _.
  destruct sx, sy; cbn; try discriminate; try reflexivity;
    rewrite (Z.compare_antisym ex ey);
    destruct (Z.compare_spec ex ey); cbn; try discriminate; try reflexivity;
    change (PosDef.Pos.compare_cont Eq) with Pos.compare;
    rewrite (Pos.compare_antisym mx my);
    destruct (Pos.compare_spec mx my); cbn; try discriminate; try reflexivity.
Qed.

Lemma SFltb_leb x y : SFltb x y = true -> SFleb x y = true.
Proof. unfold SFleb, SFltb. destruct (SFcompare x y) as [[]|]; congruence. Qed.

Lemma SFleb_refl x : x <> S754_nan -> SFleb x x = true.
Proof.
  unfold SFleb. destruct x as [sx|sx| |sx mx ex]; cbn; try congruence; intros _.
  - destruct sx; reflexivity.
  - destruct sx; rewrite Z.compare_refl;
    change (PosDef.Pos.compare_cont Eq) with Pos.compare;
    rewrite Pos.compare_refl; reflexivity.
Qed.

Lemma not_nan_spec x : is_nan x = false -> Prim2SF x <> S754_nan.
Proof.
  unfold is_nan. rewrite FloatAxioms.eqb_spec. intros H E. rewrite E in H. discriminate.
Qed.

Lemma float_leb_trans x y z :
  (x <=? y)%float = true -> (y <=? z)%float = true ->
  (x <=? z)%float = true.
Proof. rewrite !leb_spec. apply SFleb_trans. Qed.

Lemma float_leb_refl x : is_nan x = false -> (x <=? x)%float = true.
Proof. intros H. rewrite leb_spec. apply SFleb_refl, not_nan_spec, H. Qed.

Lemma float_ltb_leb x y : (x <? y)%float = true -> (x <=? y)%float = true.
Proof. rewrite ltb_spec, leb_spec. apply SFltb_leb. Qed.

Lemma float_not_ltb_leb x y : is_nan x = false -> is_nan y = false ->
  (x <? y)%float = false -> (y <=? x)%float = true.
Proof.
  intros Hx Hy. rewrite ltb_spec, leb_spec.
  apply SFleb_total; apply not_nan_spec; assumption.
Qed.

Lemma float_leb_neg_infinity x : (x <=? neg_infinity)%float = true -> x = neg_infinity.
Proof.
  rewrite leb_spec. change (Prim2SF neg_infinity) with (S754_infinity true).
  intros H. rewrite <- (SF2Prim_Prim2SF x).
  destruct (Prim2SF x) as [s|s| |s m e]; cbn in H; try discriminate;
    destruct s; try discriminate; reflexivity.
Qed.

(** ** [Math.max] *)

Lemma max_step_spec h x :
  is_nan h = false -> is_nan x = false ->
  is_nan (max_step h x) = false /\
  (max_step h x = h \/ max_step h x = x) /\
  (h <=? max_step h x)%float = true /\ (x <=? max_step h x)%float = true.
Proof.
  intros Hh Hx. unfold max_step. rewrite Hh, Hx. cbn [orb].
  destruct (is_zero x && negb (get_sign x) && is_zero h && get_sign h) eqn:Hz.
  - repeat split; auto using float_leb_refl.
    apply andb_prop in Hz as [Hz _]. apply andb_prop in Hz as [Hz Hzh].
    apply andb_prop in Hz as [Hzx _].
    destruct (float_zero_cases x Hzx) as [-> | ->],
      (float_zero_cases h Hzh) as [-> | ->];
      reflexivity.
  - destruct (h <? x)%float eqn:Hlt.
    + repeat split; auto using float_leb_refl, float_ltb_leb.
    + repeat split; auto using float_leb_refl, float_not_ltb_leb.
Qed.

(** Of three numbers, [Math.max] returns one of them, and none of them is
    larger. *)
Lemma Math_max_is_largest a b c :
  is_nan a = false -> is_nan b = false -> is_nan c = false ->
  let m := Math_max [a; b; c] in
  (m = a \/ m = b \/ m = c) /\
  (a <=? m)%float = true /\ (b <=? m)%float = true /\ (c <=? m)%float = true.
Proof.
  intros Ha Hb Hc.
  change (Math_max [a; b; c])
    with (max_step (max_step (max_step neg_infinity a) b) c).
  destruct (max_step_spec neg_infinity a eq_refl Ha) as (N1 & M1 & _ & A1).
  assert (max_step neg_infinity a = a) as E1.
  { destruct M1 as [E|E]; [|exact E]. rewrite E in A1 |- *.
    symmetry. apply float_leb_neg_infinity. exact A1. }
  rewrite E1 in *. clear M1 A1 N1 E1.
  destruct (max_step_spec a b Ha Hb) as (N2 & M2 & A2 & B2).
  destruct (max_step_spec _ c N2 Hc) as (N3 & M3 & A3 & C3).
  cbv zeta. repeat split.
  - destruct M3 as [->| ->]; [destruct M2 as [->| ->]|]; auto.
  - eapply float_leb_trans; eassumption.
  - eapply float_leb_trans; eassumption.
  - assumption.
Qed.

(** * Facts about the interpreter *)

Ltac unfold_uv :=
  cbv [face_uvs setFaceUV bind uv_array uv_store modify attributes_uv width
       height depth fmap option_fmap option_map try_face_uvs try_catch ret
       store_of].

Ltac view_simpl :=
  cbn [simpleRoot position scale children scene camera controls_target
       cubeCount root_translate root_setScalar root_add count_cube scene_add
       set_target set_camera with_root with_locals Vector3_sub vx vy vz
       camera_position near far].

Section Facts.

Context {builtins : Builtins}.

Lemma truthy_not_nullish v : truthy v = true -> nullish v = false.
Proof. destruct v; cbn; congruence. Qed.

Lemma js_or_default_not_nullish a b :
  truthy b = true -> nullish (js_or a b) = false.
Proof.
  intros Hb. apply truthy_not_nullish. unfold js_or.
  destruct (truthy a) eqn:E; auto.
Qed.

Lemma get_ok {S} v k (st : S) :
  nullish v = false -> get v k st = Ok (field v k) st.
Proof. unfold get. intros ->. reflexivity. Qed.

Lemma get_index_ok {S} v i (st : S) :
  nullish v = false -> get_index v i st = Ok (item v i) st.
Proof. unfold get_index. intros ->. reflexivity. Qed.

Lemma bind_ok {S A B} (m : M S A) (k : A -> M S B) st a st' :
  m st = Ok a st' -> bind m k st = k a st'.
Proof. unfold bind. intros ->. reflexivity. Qed.

Lemma degToRad_or_zero (r : float) :
  is_nan r = false ->
  same_number (degToRad (js_or (VNum r) (VNum 0))) (r * DEG2RAD) = true.
Proof.
  intros Hn. unfold js_or. cbn [truthy]. rewrite Hn, orb_false_r.
  destruct (r =? 0)%float eqn:Hz; cbn [negb].
  - destruct (float_zero_cases r Hz) as [-> | ->]; reflexivity.
  - apply same_number_refl.
Qed.

(** The fields of the JSON object of a cube. *)
Lemma cube_json_not_nullish c : nullish (cube_json c) = false.
Proof. reflexivity. Qed.

Lemma cube_json_origin c :
  field (cube_json c) "origin"
  = from_option vec3_json VUndefined (c_origin c).
Proof. destruct c as [[?|] [?|] [?|] [?|] [?|] [?|]]; reflexivity. Qed.

Lemma cube_json_size c :
  field (cube_json c) "size"
  = from_option vec3_json VUndefined (c_size c).
Proof. destruct c as [[?|] [?|] [?|] [?|] [?|] [?|]]; reflexivity. Qed.

Lemma cube_json_pivot c :
  field (cube_json c) "pivot"
  = from_option vec3_json VUndefined (c_pivot c).
Proof. destruct c as [[?|] [?|] [?|] [?|] [?|] [?|]]; reflexivity. Qed.

Lemma cube_json_rotation c :
  field (cube_json c) "rotation"
  = from_option vec3_json VUndefined (c_rotation c).
Proof. destruct c as [[?|] [?|] [?|] [?|] [?|] [?|]]; reflexivity. Qed.

Lemma cube_json_uv c :
  field (cube_json c) "uv" = default VUndefined (c_uv c).
Proof. destruct c as [[?|] [?|] [?|] [?|] [?|] [?|]]; reflexivity. Qed.

Lemma cube_json_mirror c :
  field (cube_json c) "mirror"
  = from_option VBool VUndefined (c_mirror c).
Proof. destruct c as [[?|] [?|] [?|] [?|] [?|] [?|]]; reflexivity. Qed.

(** ** The UV block *)

(** On a geometry that has a [uv] array the six calls return. *)
Lemma face_uvs_some texW texH cube u v w h d wd ht dp a :
  nullish cube = false ->
  exists a', face_uvs texW texH cube u v w h d (mkGeometry wd ht dp (Some a))
             = Ok tt (mkGeometry wd ht dp (Some a')).
Proof.
  intros Hc. unfold_uv. rewrite !(get_ok _ _ _ Hc). eexists. reflexivity.
Qed.

(** Without the array the first call throws, before any store. *)
Lemma face_uvs_none texW texH cube u v w h d wd ht dp :
  face_uvs texW texH cube u v w h d (mkGeometry wd ht dp None)
  = Throw TypeError (mkGeometry wd ht dp None).
Proof.
  unfold_uv. unfold get. destruct (nullish cube); reflexivity.
Qed.


(** The block returns for every cube that is a value, and changes
    nothing but the [uv] array. *)
Lemma apply_uv_ok {S} texW texH cube sx sy sz g (st : S) :
  nullish cube = false ->
  exists g', apply_uv texW texH cube sx sy sz g st = Ok g' st
    /\ erase_geometry g' = erase_geometry g.
Proof.
  intros Hc. unfold apply_uv.
  rewrite (bind_ok _ _ _ _ _ (get_ok _ _ _ Hc)).
  destruct (Array_isArray (field cube "uv") &&
            length_is (field cube "uv") 2) eqn:E.
  - apply andb_prop in E as [E1 _].
    assert (nullish (field cube "uv") = false) as Hn
      by (destruct (field cube "uv"); done).
    rewrite !(bind_ok _ _ _ _ _ (get_index_ok _ _ _ Hn)).
    eexists. split; [reflexivity|].
    unfold try_face_uvs, try_catch.
    destruct g as [wd ht dp [a|]].
    + destruct (face_uvs_some texW texH cube (item (field cube "uv") 0)
                  (item (field cube "uv") 1) sx sy sz wd ht dp a Hc)
        as [a' ->].
      reflexivity.
    + rewrite face_uvs_none. reflexivity.
  - eexists. split; reflexivity.
Qed.

Lemma apply_uv_skip {S} texW texH cube sx sy sz g (st : S) :
  nullish cube = false ->
  Array_isArray (field cube "uv") && length_is (field cube "uv") 2 = false ->
  apply_uv texW texH cube sx sy sz g st = Ok g st.
Proof.
  intros Hc Ht. unfold apply_uv.
  rewrite (bind_ok _ _ _ _ _ (get_ok _ _ _ Hc)), Ht. reflexivity.
Qed.

(** On a fresh box the six calls store the numbers of [cube_numbers]. *)
Lemma try_face_uvs_box texW texH cube u v w h d sx sy sz :
  nullish cube = false ->
  try_face_uvs texW texH cube u v w h d (BoxGeometry sx sy sz)
  = Ok tt (mkGeometry (width (BoxGeometry sx sy sz))
             (height (BoxGeometry sx sy sz)) (depth (BoxGeometry sx sy sz))
             (Some (cube_numbers texW texH
                      (truthy (arg_or_default (field cube "mirror") (VBool false)))
                      u v w h d))).
Proof.
  intros Hc. unfold try_face_uvs, face_uvs, get. rewrite Hc.
  unfold_uv. unfold BoxGeometry.
  cbv [cube_numbers face_numbers app insert list_insert Nat.mul Nat.add
       default_uvs default_face_uv].
  destruct (truthy (arg_or_default (field cube "mirror") (VBool false)));
    reflexivity.
Qed.


(** ** One cube *)

Lemma place_ok {S} cube g center (st : S) :
  nullish cube = false ->
  let pv := field cube "pivot" in
  let rt := field cube "rotation" in
  let cPivot := js_or pv (vec_of_3 (VNum 0) (VNum 0) (VNum 0)) in
  place cube g center st =
  Ok (if truthy (js_or pv rt) then
        Group (Vector3_set origin3 (item cPivot 0) (item cPivot 1)
                           (item cPivot 2))
              (if truthy rt then
                 Euler_set default_rotation
                   (degToRad (js_or (item rt 0) (VNum 0)))
                   (degToRad (js_or (item rt 1) (VNum 0)))
                   (degToRad (js_or (item rt 2) (VNum 0)))
               else default_rotation)
              (mkMesh g (Vector3_set origin3
                           (js_sub (vx center) (item cPivot 0))
                           (js_sub (vy center) (item cPivot 1))
                           (js_sub (vz center) (item cPivot 2))))
      else BareMesh (mkMesh g (Vector3_set origin3 (vx center) (vy center)
                                           (vz center)))) st.
Proof.
  intros Hc pv rt cPivot. unfold place.
  rewrite !(bind_ok _ _ _ _ _ (get_ok _ _ _ Hc)).
  fold pv rt. destruct (truthy (js_or pv rt)) eqn:E; [|reflexivity].
  fold cPivot.
  assert (nullish cPivot = false) as Hp
    by (apply js_or_default_not_nullish; reflexivity).
  rewrite !(bind_ok _ _ _ _ _ (get_index_ok _ _ _ Hp)).
  destruct (truthy rt) eqn:Er.
  - pose proof (truthy_not_nullish _ Er) as Hr.
    cbv [bind]. rewrite !(get_index_ok _ _ _ Hr). reflexivity.
  - reflexivity.
Qed.

Lemma cube_object_ok {S} texW texH cube (st : S) :
  nullish cube = false ->
  let origin := js_or (field cube "origin") (vec_of_3 (VNum 0) (VNum 0) (VNum 0)) in
  let size := js_or (field cube "size") (vec_of_3 (VNum 1) (VNum 1) (VNum 1)) in
  let sx := item size 0 in
  let sy := item size 1 in
  let sz := item size 2 in
  exists g,
    apply_uv texW texH cube sx sy sz (BoxGeometry sx sy sz) st = Ok g st /\
    erase_geometry g = erase_geometry (BoxGeometry sx sy sz) /\
    cube_object texW texH cube st =
    place cube g (mkVec3 (js_add (item origin 0) (js_div sx (VNum 2)))
                         (js_add (item origin 1) (js_div sy (VNum 2)))
                         (js_add (item origin 2) (js_div sz (VNum 2)))) st.
Proof.
  intros Hc origin size sx sy sz.
  destruct (apply_uv_ok texW texH cube sx sy sz (BoxGeometry sx sy sz) st Hc)
    as (g & Hg & He).
  exists g. split; [exact Hg|]. split; [exact He|].
  unfold cube_object, cube_origin, cube_size, cube_center.
  assert (nullish origin = false) as Ho
    by (apply js_or_default_not_nullish; reflexivity).
  assert (nullish size = false) as Hs
    by (apply js_or_default_not_nullish; reflexivity).
  cbv [bind ret]. rewrite !(get_ok _ _ _ Hc). fold origin size.
  rewrite !(get_index_ok _ _ _ Hs). fold sx sy sz. rewrite Hg.
  rewrite !(get_index_ok _ _ _ Ho). reflexivity.
Qed.

Lemma cube_object_nullish {S} texW texH cube (st : S) :
  nullish cube = true -> cube_object texW texH cube st = Throw TypeError st.
Proof.
  intros Hc. unfold cube_object, cube_origin. cbv [bind]. unfold get.
  rewrite Hc. reflexivity.
Qed.

Lemma cube_object_total {S} texW texH cube (st : S) :
  nullish cube = false -> exists c, cube_object texW texH cube st = Ok c st.
Proof.
  intros Hc. destruct (cube_object_ok texW texH cube st Hc) as (g & _ & _ & ->).
  rewrite place_ok by exact Hc. eexists. reflexivity.
Qed.

Lemma cube_object_pair {S} texW texH cube u v (st : S) :
  nullish cube = false ->
  field cube "uv" = VArr [u; v] ->
  let origin := js_or (field cube "origin") (vec_of_3 (VNum 0) (VNum 0) (VNum 0)) in
  let size := js_or (field cube "size") (vec_of_3 (VNum 1) (VNum 1) (VNum 1)) in
  let sx := item size 0 in
  let sy := item size 1 in
  let sz := item size 2 in
  cube_object texW texH cube st =
  place cube
    (mkGeometry (arg_or_default sx (VNum 1)) (arg_or_default sy (VNum 1))
       (arg_or_default sz (VNum 1))
       (Some (cube_numbers texW texH
                (truthy (arg_or_default (field cube "mirror") (VBool false)))
                u v sx sy sz)))
    (mkVec3 (js_add (item origin 0) (js_div sx (VNum 2)))
            (js_add (item origin 1) (js_div sy (VNum 2)))
            (js_add (item origin 2) (js_div sz (VNum 2)))) st.
Proof.
  intros Hc Huv origin size sx sy sz.
  destruct (cube_object_ok texW texH cube st Hc) as (g & Hg & _ & ->).
  fold origin size sx sy sz in Hg |- *.
  unfold apply_uv in Hg.
  rewrite (bind_ok _ _ _ _ _ (get_ok _ _ _ Hc)), Huv in Hg.
  cbn [Array_isArray length_is length Nat.eqb andb] in Hg.
  cbv [bind get_index nullish ret item] in Hg.
  rewrite try_face_uvs_box in Hg by exact Hc.
  cbn in Hg. injection Hg as <-. reflexivity.
Qed.

Lemma plain_cube_object_ok {S} cube (st : S) :
  nullish cube = false ->
  let origin := js_or (field cube "origin") (vec_of_3 (VNum 0) (VNum 0) (VNum 0)) in
  let size := js_or (field cube "size") (vec_of_3 (VNum 1) (VNum 1) (VNum 1)) in
  let sx := item size 0 in
  let sy := item size 1 in
  let sz := item size 2 in
  Plain.cube_object cube st =
  place cube (BoxGeometry sx sy sz)
        (mkVec3 (js_add (item origin 0) (js_div sx (VNum 2)))
                (js_add (item origin 1) (js_div sy (VNum 2)))
                (js_add (item origin 2) (js_div sz (VNum 2)))) st.
Proof.
  intros Hc origin size sx sy sz.
  unfold Plain.cube_object, cube_origin, cube_size, cube_center.
  assert (nullish origin = false) as Ho
    by (apply js_or_default_not_nullish; reflexivity).
  assert (nullish size = false) as Hs
    by (apply js_or_default_not_nullish; reflexivity).
  cbv [bind ret]. rewrite !(get_ok _ _ _ Hc). fold origin size.
  rewrite !(get_index_ok _ _ _ Hs). fold sx sy sz.
  rewrite !(get_index_ok _ _ _ Ho). reflexivity.
Qed.

Lemma plain_cube_object_nullish {S} cube (st : S) :
  nullish cube = true -> Plain.cube_object cube st = Throw TypeError st.
Proof.
  intros Hc. unfold Plain.cube_object, cube_origin. cbv [bind]. unfold get.
  rewrite Hc. reflexivity.
Qed.

Lemma cube_object_skip {S} texW texH cube (st : S) :
  nullish cube = false ->
  Array_isArray (field cube "uv") && length_is (field cube "uv") 2 = false ->
  cube_object texW texH cube st = Plain.cube_object cube st.
Proof.
  intros Hc Ht. unfold cube_object, Plain.cube_object.
  cbv [bind cube_origin cube_size ret]. rewrite !(get_ok _ _ _ Hc).
  set (size := js_or (field cube "size") _).
  assert (nullish size = false) as Hs
    by (apply js_or_default_not_nullish; reflexivity).
  rewrite !(get_index_ok _ _ _ Hs).
  rewrite apply_uv_skip by assumption. reflexivity.
Qed.

Lemma cube_object_agree {S} texW texH cube (st : S) :
  nullish cube = false ->
  exists c1 c2, Plain.cube_object cube st = Ok c1 st /\
                cube_object texW texH cube st = Ok c2 st /\
                erase_child c1 = erase_child c2.
Proof.
  intros Hc.
  destruct (cube_object_ok texW texH cube st Hc) as (g & _ & He & ->).
  rewrite plain_cube_object_ok by exact Hc.
  rewrite !place_ok by exact Hc.
  eexists _, _. split; [reflexivity|]. split; [reflexivity|].
  destruct (truthy (js_or _ _)); cbn [erase_child geometry mesh_position];
    rewrite He; reflexivity.
Qed.

(** ** The loop over the cubes of a bone *)

Lemma build_cube_nullish texW texH cube st :
  nullish cube = true ->
  build_cube texW texH cube st = Throw TypeError (count_cube st).
Proof.
  intros Hc. unfold build_cube. cbv [bind modify].
  rewrite cube_object_nullish by exact Hc. reflexivity.
Qed.

Lemma build_cube_ok texW texH cube st :
  nullish cube = false ->
  exists c, cube_object texW texH cube (count_cube st) = Ok c (count_cube st) /\
            build_cube texW texH cube st = Ok tt (root_add c (count_cube st)).
Proof.
  intros Hc.
  destruct (cube_object_total texW texH cube (count_cube st) Hc)
    as [c Hcube].
  exists c. split; [exact Hcube|]. unfold build_cube. cbv [bind modify].
  rewrite Hcube. reflexivity.
Qed.


(** * The claims about one cube *)

(** C2. For every cube, with [origin] defaulting to [0,0,0] and [size] to
    [1,1,1], the center the loader computes is [origin + size/2] on each
    axis, whatever pivot or rotation the cube has: the mesh is placed at
    that center, or, inside a group, at that center minus the group's
    position. *)
Theorem center_is_origin_plus_half_size {S} (texW texH : value) (c : Cube) (st : S) :
  exists g,
    cube_object texW texH (cube_json c) st
      = Ok (BareMesh (mkMesh g (vec3_values (center_of c)))) st
    \/ exists p rot,
         cube_object texW texH (cube_json c) st
         = Ok (Group (vec3_values p) rot
                 (mkMesh g (vec3_values (vec3_minus (center_of c) p)))) st.
Proof.
  destruct (cube_object_ok texW texH (cube_json c) st (cube_json_not_nullish c))
    as (g & _ & _ & ->).
  exists g. rewrite place_ok by reflexivity.
  rewrite cube_json_origin, cube_json_size, cube_json_pivot, cube_json_rotation.
  unfold center_of, origin_of, size_of.
  destruct c as [[o|] [s|] [p|] [r|] u m]; cbn;
    first [ left; reflexivity
          | right; exists p; eexists; reflexivity
          | right; exists (mkVec3 0 0 0)%float; eexists; reflexivity ].
Qed.

(** C3. A cube that has a pivot or a rotation gives a group positioned at
    the pivot (default [0,0,0]), whose Euler rotation has the order XYZ and,
    per axis, the rotation's degrees times pi/180 (zero without a
    rotation), holding the mesh at [center - pivot]; a cube with neither
    gives the bare mesh at [center].  The angles are compared as numbers,
    up to the sign of zero: the loader reads [r[i] || 0], which turns a
    negative zero into zero. *)
Theorem pivot_or_rotation_wraps_in_group {S} (texW texH : value) (c : Cube) (st : S) :
  no_nan (rotation_of c) = true ->
  exists g,
    match c_pivot c, c_rotation c with
    | None, None =>
        cube_object texW texH (cube_json c) st
        = Ok (BareMesh (mkMesh g (vec3_values (center_of c)))) st
    | _, _ =>
        exists rot,
          cube_object texW texH (cube_json c) st
          = Ok (Group (vec3_values (pivot_of c)) rot
                  (mkMesh g (vec3_values
                               (vec3_minus (center_of c) (pivot_of c))))) st
          /\ order rot = XYZ
          /\ same_number (ex rot) (vx (rotation_of c) * DEG2RAD) = true
          /\ same_number (ey rot) (vy (rotation_of c) * DEG2RAD) = true
          /\ same_number (ez rot) (vz (rotation_of c) * DEG2RAD) = true
    end.
Proof.
  intros Hn.
  destruct (cube_object_ok texW texH (cube_json c) st (cube_json_not_nullish c))
    as (g & _ & _ & ->).
  exists g. rewrite place_ok by reflexivity.
  rewrite cube_json_origin, cube_json_size, cube_json_pivot, cube_json_rotation.
  unfold center_of, origin_of, size_of, pivot_of, vec3_minus.
  unfold no_nan, rotation_of in Hn.
  destruct c as [[o|] [s|] [p|] [r|] u m]; cbn in Hn |- *;
    try reflexivity;
    (eexists; split; [reflexivity|]; split; [reflexivity|]);
    try (repeat split; reflexivity);
    apply negb_true_iff in Hn;
    apply orb_false_elim in Hn as [Hn Hz]; apply orb_false_elim in Hn as [Hx Hy];
    repeat split; apply degToRad_or_zero; assumption.
Qed.

(** For numbers, what the six calls leave in the array is the Bedrock net
    in single precision. *)
Lemma cube_numbers_net (texW texH : float) (mirror : bool) (u v w h d : float) :
  cube_numbers (VNum texW) (VNum texH) mirror (VNum u) (VNum v)
               (VNum w) (VNum h) (VNum d)
  = Math_fround <$> net_uvs texW texH mirror (bedrock_net u v w h d).
Proof. destruct mirror; reflexivity. Qed.

(** C1. For a cube whose [uv] is the pair [(u, v)], the forty-eight numbers
    stored in the geometry are, face by face in the order +X -X +Y -Y +Z
    -Z, the corners of the Bedrock net rectangles, with U divided by the
    texture width and the rows [y .. y+h2] mapped to the V range
    [1 - (y+h2)/texH, 1 - y/texH] (left and right exchanged when [mirror]
    is set), each number held in single precision as the [Float32Array]
    of the attribute keeps it.  In scenario 2 the +Z face, numbers 32 to
    39, has the U range [1/64, 2/64] and the V range [62/64, 63/64],
    which single precision holds exactly. *)
Theorem face_uvs_follow_bedrock_net :
  (forall S (c : Cube) (u v texW texH : float) (st : S),
     c_uv c = Some (VArr [VNum u; VNum v]) ->
     exists child,
       cube_object (VNum texW) (VNum texH) (cube_json c) st = Ok child st /\
       attributes_uv (geometry (child_mesh child)) =
       Some (Math_fround <$>
             net_uvs texW texH (default false (c_mirror c))
               (bedrock_net u v (vx (size_of c)) (vy (size_of c))
                            (vz (size_of c)))))
  /\ (forall S (st : S),
        exists g uvs,
          cube_object (VNum 64) (VNum 64) (cube_json scenario_2) st
          = Ok (BareMesh (mkMesh g (vec3_values (mkVec3 0.5 0.5 0.5)%float))) st
          /\ attributes_uv g = Some uvs
          /\ take 8 (drop 32 uvs)
             = face_quad (1 / 64, 2 / 64)%float (62 / 64, 63 / 64)%float).
Proof.
  split.
  - intros S c u v texW texH st Huv.
    rewrite (cube_object_pair _ _ _ (VNum u) (VNum v))
      by (try reflexivity; rewrite cube_json_uv, Huv; reflexivity).
    rewrite place_ok by reflexivity.
    rewrite cube_json_origin, cube_json_size, cube_json_pivot,
      cube_json_rotation, cube_json_mirror.
    set (size := js_or (from_option vec3_json VUndefined (c_size c)) _).
    assert (item size 0 = VNum (vx (size_of c)) /\
            item size 1 = VNum (vy (size_of c)) /\
            item size 2 = VNum (vz (size_of c))) as (H0 & H1 & H2)
      by (unfold size, size_of; destruct (c_size c); repeat split; reflexivity).
    rewrite H0, H1, H2.
    replace (truthy (arg_or_default (from_option VBool VUndefined (c_mirror c))
                                    (VBool false)))
      with (default false (c_mirror c))
      by (destruct (c_mirror c) as [[|]|]; reflexivity).
    rewrite cube_numbers_net.
    destruct (truthy (js_or _ _)); eexists; split; reflexivity.
  - intros S st. eexists _, _. split; [vm_compute; reflexivity|].
    split; vm_compute; reflexivity.
Qed.


(** C9. A cube whose [uv] is present but is not an array of exactly two
    elements is built without an error, keeps the UVs a fresh box has, and
    is the very child the same cube without [uv] gives. *)
Theorem ill_shaped_uv_is_ignored {S} (c : Cube) (x texW texH : value) (st : S) :
  c_uv c = Some x ->
  Array_isArray x && length_is x 2 = false ->
  exists child,
    cube_object texW texH (cube_json c) st = Ok child st /\
    attributes_uv (geometry (child_mesh child)) = Some default_uvs /\
    cube_object texW texH (cube_json (without_uv c)) st = Ok child st.
Proof.
  intros Huv Ht.
  rewrite !cube_object_skip;
    try reflexivity;
    try (rewrite cube_json_uv; try rewrite Huv; cbn; done).
  destruct c as [o s p r cu m]. cbn in Huv. subst cu.
  destruct o as [o|], s as [s|], p as [p|], r as [r|], m as [m|];
    (eexists; split; [vm_compute; reflexivity|]; split; reflexivity).
Qed.


End Facts.

(** * The claims about the scene *)

Section Frame.

Context {engine : Engine}.

(** C4. For every sequence of box primitives under a freshly built root:
    when the bounding box is not empty the root is translated by the
    negative of the box's center (as numbers, up to the sign of zero) and
    scaled uniformly by [60 / maxDimension] when the largest dimension is
    positive, the scale staying 1 when it is zero; when the box is empty
    the root goes into the scene as it is and neither the camera nor the
    orbit target is touched. *)
Theorem frame_normalizes_root (kids : list Child) (st0 : View) :
  let st := with_children kids st0 in
  let box := setFromObject (simpleRoot st) in
  let center := Box3_getCenter box in
  let size := Box3_getSize box in
  let maxDimension := Math_max [vx size; vy size; vz size] in
  exists st',
    frame st = Ok tt st' /\
    children (simpleRoot st') = kids /\
    scene st' = scene st0 ++ [simpleRoot st'] /\
    if Box3_isEmpty box then
      simpleRoot st' = simpleRoot st /\
      camera st' = camera st0 /\
      controls_target st' = controls_target st0
    else
      same_number (vx (position (simpleRoot st'))) (- vx center) = true /\
      same_number (vy (position (simpleRoot st'))) (- vy center) = true /\
      same_number (vz (position (simpleRoot st'))) (- vz center) = true /\
      ((0 <? maxDimension)%float = true ->
         scale (simpleRoot st')
         = (mkVec3 (60 / maxDimension) (60 / maxDimension)
                   (60 / maxDimension))%float) /\
      ((maxDimension =? 0)%float = true ->
         scale (simpleRoot st') = (mkVec3 1 1 1)%float).
Proof.
  intros st box center size maxDimension.
  unfold frame. cbv [bind get_state modify ret]. fold box.
  destruct (Box3_isEmpty box) eqn:Hempty; cbn [negb].
  - eexists. split; [reflexivity|]. unfold st, with_children. view_simpl.
    auto.
  - fold size maxDimension center.
    destruct (0 <? maxDimension)%float eqn:Hpos;
      (eexists; split; [reflexivity|]); unfold st, with_children;
      view_simpl; repeat split; auto using sub_zero_is_negation.
    + intros Hz. apply float_zero_not_pos in Hz. congruence.
    + discriminate.
Qed.

(** C8. Whenever the bounding box is not empty, with [dist] twice the
    largest dimension of the box as computed before any scaling, the
    camera is put at [(0.8 dist, 0.6 dist, 1.2 dist)] with near plane 0.1
    and far plane [10 dist + 100], and the orbit target is reset to the
    origin. *)
Theorem camera_framing (st : View) :
  Box3_isEmpty (setFromObject (simpleRoot st)) = false ->
  let size := Box3_getSize (setFromObject (simpleRoot st)) in
  let maxDimension := Math_max [vx size; vy size; vz size] in
  let dist := (2 * maxDimension)%float in
  exists st',
    frame st = Ok tt st' /\
    camera st' = (mkCamera (mkVec3 (0.8 * dist) (0.6 * dist) (1.2 * dist))
                           0.1 (10 * dist + 100))%float /\
    controls_target st' = (mkVec3 0 0 0)%float.
Proof.
  intros Hne size maxDimension dist.
  unfold frame. cbv [bind get_state modify ret]. rewrite Hne. cbn [negb].
  fold size maxDimension dist.
  rewrite (float_mul_comm 0.8 dist), (float_mul_comm 0.6 dist),
    (float_mul_comm 1.2 dist), (float_mul_comm 10 dist).
  destruct (0 <? maxDimension)%float; eexists; (split; [reflexivity|]);
    view_simpl; auto.
Qed.

End Frame.

(** * The claims about a whole load *)

Section Load.

Context {builtins : Builtins} {engine : Engine}.

(** C5, as amended.  A document whose [minecraft:geometry] field is
    missing or [null], or has no element 0 (an empty array among others),
    makes [loadModel] throw a TypeError with the store exactly as it was:
    no cube counted, no box built, nothing added to the scene. *)
Theorem missing_or_empty_geometry_throws (doc : value) (st : View) :
  no_first_geometry doc = true ->
  loadModel true true doc st = Throw TypeError st.
Proof.
  unfold no_first_geometry. intros H.
  unfold loadModel. cbn [negb orb]. cbv [bind]. unfold get at 1.
  destruct (nullish doc) eqn:Hd; [reflexivity|].
  cbv [ret]. unfold get_index at 1.
  destruct (nullish (field doc "minecraft:geometry")) eqn:Hg; [reflexivity|].
  cbn [orb] in H. cbv [ret]. unfold get at 1. rewrite H. reflexivity.
Qed.

(** ** What the cube loop leaves alone *)

Lemma framed_like_refl s : framed_like s s.
Proof. repeat split. Qed.

Lemma for_each_store {A} (P : View -> Prop) (f : A -> M View unit) l :
  (forall x s, P s -> P (store_of (f x s))) ->
  forall s, P s -> P (store_of (for_each l f s)).
Proof.
  intros Hf. induction l as [|x l IH]; intros s Hs; [exact Hs|].
  cbn [for_each]. unfold bind. specialize (Hf x s Hs).
  destruct (f x s) as [[] s'|e s']; cbn in Hf |- *; auto.
Qed.

Lemma build_cube_framed texW texH st0 cube s :
  framed_like st0 s -> framed_like st0 (store_of (build_cube texW texH cube s)).
Proof.
  intros H. destruct (nullish cube) eqn:Hc.
  - rewrite build_cube_nullish by exact Hc. exact H.
  - destruct (build_cube_ok texW texH cube s Hc) as (c & _ & ->). exact H.
Qed.

Lemma build_bone_framed texW texH st0 entry s :
  framed_like st0 s -> framed_like st0 (store_of (build_bone texW texH entry s)).
Proof.
  intros H. unfold build_bone. cbv [bind]. unfold get.
  destruct (nullish _); [exact H|]. cbv [ret].
  destruct (negb (truthy _)); [exact H|].
  unfold iterate.
  destruct (field _ "cubes"); cbv [ret throw]; try exact H;
    apply for_each_store; auto using build_cube_framed.
Qed.

Lemma bind_Ok_inv {S A B} (m : M S A) (k : A -> M S B) s b s' :
  bind m k s = Ok b s' -> exists a s1, m s = Ok a s1 /\ k a s1 = Ok b s'.
Proof.
  unfold bind. destruct (m s) as [a s1|e s1]; [eauto|discriminate].
Qed.

Lemma get_Ok_inv {S} v k (s : S) a s1 : get v k s = Ok a s1 -> s1 = s.
Proof. unfold get. destruct (nullish v); cbv [throw ret]; congruence. Qed.

Lemma get_index_Ok_inv {S} v i (s : S) a s1 : get_index v i s = Ok a s1 -> s1 = s.
Proof. unfold get_index. destruct (nullish v); cbv [throw ret]; congruence. Qed.

Lemma iterate_Ok_inv {S} v (s : S) a s1 : iterate v s = Ok a s1 -> s1 = s.
Proof. unfold iterate. destruct v; cbv [throw ret]; congruence. Qed.

Lemma collect_bones_pure items acc :
  (exists m, forall S (s : S), collect_bones items acc s = Ok m s) \/
  (exists e, forall S (s : S), collect_bones items acc s = Throw e s).
Proof.
  revert acc. induction items as [|b rest IH]; intros acc.
  - left. exists acc. reflexivity.
  - cbn [collect_bones]. destruct (nullish b) eqn:Hb.
    + right. exists TypeError. intros S s. cbv [bind]. unfold get.
      rewrite Hb. reflexivity.
    + set (p := js_or (field b "pivot") (vec_of_3 (VNum 0) (VNum 0) (VNum 0))).
      assert (nullish p = false) as Hp
        by (apply js_or_default_not_nullish; reflexivity).
      destruct (IH (Map_set (field b "name")
                      (mkBoneEntry b (mkBoneObj (field b "name")
                         (Vector3_set origin3 (item p 0) (item p 1)
                                      (item p 2)))) acc))
        as [[m H]|[e H]]; [left; exists m|right; exists e];
        intros S s; cbv [bind]; rewrite !(get_ok _ _ _ Hb); fold p;
        rewrite !(get_index_ok _ _ _ Hp); apply H.
Qed.

Lemma collect_bones_Ok_inv {S} items acc (s : S) m s1 :
  collect_bones items acc s = Ok m s1 -> s1 = s.
Proof.
  destruct (collect_bones_pure items acc) as [[m' H]|[e H]]; rewrite H; congruence.
Qed.

(** A load that returns has run [frame] on a root at the origin with
    scale 1, in a store whose scene, camera and orbit target are those it
    started with. *)
Lemma loadModel_ends_with_frame texOk geoOk doc st st' :
  loadModel texOk geoOk doc st = Ok tt st' ->
  exists s,
    position (simpleRoot s) = (mkVec3 0 0 0)%float /\
    scale (simpleRoot s) = (mkVec3 1 1 1)%float /\
    scene s = scene st /\ camera s = camera st /\
    controls_target s = controls_target st /\
    frame s = Ok tt st'.
Proof.
  unfold loadModel. destruct (negb texOk || negb geoOk); [discriminate|].
  intros H.
  apply bind_Ok_inv in H as (g & s1 & H1 & H). apply get_Ok_inv in H1 as ->.
  apply bind_Ok_inv in H as (geom & s1 & H1 & H). apply get_index_Ok_inv in H1 as ->.
  apply bind_Ok_inv in H as (d & s1 & H1 & H). apply get_Ok_inv in H1 as ->.
  apply bind_Ok_inv in H as (tw & s1 & H1 & H). apply get_Ok_inv in H1 as ->.
  apply bind_Ok_inv in H as (th & s1 & H1 & H). apply get_Ok_inv in H1 as ->.
  apply bind_Ok_inv in H as (bs & s1 & H1 & H). apply get_Ok_inv in H1 as ->.
  apply bind_Ok_inv in H as (items & s1 & H1 & H). apply iterate_Ok_inv in H1 as ->.
  apply bind_Ok_inv in H as (bones & s1 & H1 & H).
  apply collect_bones_Ok_inv in H1 as ->.
  apply bind_Ok_inv in H as ([] & s1 & H1 & H).
  cbv [modify] in H1. injection H1 as <-.
  apply bind_Ok_inv in H as ([] & s2 & H2 & H).
  exists s2.
  pose proof (for_each_store (framed_like (with_locals 0 new_Object3D st))
                (build_bone (js_or tw (VNum 64)) (js_or th (VNum 64))) bones
                (fun x s => build_bone_framed _ _ _ x s)
                _ (framed_like_refl _)) as Hinv.
  rewrite H2 in Hinv. destruct Hinv as (Hp & Hsc & Hscene & Hcam & Htgt).
  repeat split; assumption.
Qed.

(** ** The two copies side by side *)

Lemma erase_count_cube s : erase_view (count_cube s) = count_cube (erase_view s).
Proof. reflexivity. Qed.

Lemma erase_root_add c s :
  erase_view (root_add c s) = root_add (erase_child c) (erase_view s).
Proof.
  unfold erase_view, root_add, with_root, erase_root. view_simpl.
  rewrite map_app. reflexivity.
Qed.

Lemma erase_with_locals n s :
  erase_view (with_locals n new_Object3D s)
  = with_locals n new_Object3D (erase_view s).
Proof. reflexivity. Qed.

Lemma erase_scene_add s : erase_view (scene_add s) = scene_add (erase_view s).
Proof. unfold erase_view, scene_add. view_simpl. rewrite map_app. reflexivity. Qed.

Lemma erase_root_translate c s :
  erase_view (root_translate c s) = root_translate c (erase_view s).
Proof. reflexivity. Qed.

Lemma erase_root_setScalar x s :
  erase_view (root_setScalar x s) = root_setScalar x (erase_view s).
Proof. reflexivity. Qed.

Lemma erase_set_target t s : erase_view (set_target t s) = set_target t (erase_view s).
Proof. reflexivity. Qed.

Lemma erase_set_camera c s : erase_view (set_camera c s) = set_camera c (erase_view s).
Proof. reflexivity. Qed.

Lemma bind_agree {A B} (m1 m2 : M View A) (k1 k2 : A -> M View B) s1 s2 :
  agree (m1 s1) (m2 s2) ->
  (forall a t1 t2, erase_view t1 = erase_view t2 -> agree (k1 a t1) (k2 a t2)) ->
  agree (bind m1 k1 s1) (bind m2 k2 s2).
Proof.
  unfold agree, bind. intros Hm Hk.
  destruct (m1 s1) as [a1 t1|e1 t1], (m2 s2) as [a2 t2|e2 t2]; cbn in Hm;
    try discriminate.
  - assert (a1 = a2) as -> by congruence.
    apply Hk. congruence.
  - cbn. congruence.
Qed.

Lemma for_each_agree {A} (f g : A -> M View unit) (l : list A) :
  (forall x t1 t2, erase_view t1 = erase_view t2 -> agree (f x t1) (g x t2)) ->
  forall s1 s2, erase_view s1 = erase_view s2 ->
  agree (for_each l f s1) (for_each l g s2).
Proof.
  intros Hfg. induction l as [|x l IH]; intros s1 s2 Hs.
  - unfold agree. cbn. rewrite Hs. reflexivity.
  - cbn [for_each]. apply bind_agree; [apply Hfg; exact Hs|].
    intros _ t1 t2 Ht. apply IH. exact Ht.
Qed.

Lemma get_agree {B} v k (k1 k2 : value -> M View B) s1 s2 :
  erase_view s1 = erase_view s2 ->
  (forall t1 t2, erase_view t1 = erase_view t2 ->
                 agree (k1 (field v k) t1) (k2 (field v k) t2)) ->
  agree (bind (get v k) k1 s1) (bind (get v k) k2 s2).
Proof.
  intros Hs Hk. unfold bind, get. destruct (nullish v); cbn.
  - unfold agree. cbn. rewrite Hs. reflexivity.
  - apply Hk. exact Hs.
Qed.

Lemma get_index_agree {B} v i (k1 k2 : value -> M View B) s1 s2 :
  erase_view s1 = erase_view s2 ->
  (forall t1 t2, erase_view t1 = erase_view t2 ->
                 agree (k1 (item v i) t1) (k2 (item v i) t2)) ->
  agree (bind (get_index v i) k1 s1) (bind (get_index v i) k2 s2).
Proof.
  intros Hs Hk. unfold bind, get_index. destruct (nullish v); cbn.
  - unfold agree. cbn. rewrite Hs. reflexivity.
  - apply Hk. exact Hs.
Qed.

Lemma iterate_agree {B} v (k1 k2 : list value -> M View B) s1 s2 :
  erase_view s1 = erase_view s2 ->
  (forall l t1 t2, erase_view t1 = erase_view t2 -> agree (k1 l t1) (k2 l t2)) ->
  agree (bind (iterate v) k1 s1) (bind (iterate v) k2 s2).
Proof.
  intros Hs Hk. unfold bind, iterate.
  destruct v; cbn; try (apply Hk; exact Hs);
    unfold agree; cbn; rewrite Hs; reflexivity.
Qed.

Lemma collect_bones_agree {B} items acc
    (k1 k2 : list (value * BoneEntry) -> M View B) s1 s2 :
  erase_view s1 = erase_view s2 ->
  (forall m t1 t2, erase_view t1 = erase_view t2 -> agree (k1 m t1) (k2 m t2)) ->
  agree (bind (collect_bones items acc) k1 s1)
        (bind (collect_bones items acc) k2 s2).
Proof.
  intros Hs Hk. unfold bind.
  destruct (collect_bones_pure items acc) as [[m H]|[e H]]; rewrite !H.
  - apply Hk. exact Hs.
  - unfold agree. cbn. rewrite Hs. reflexivity.
Qed.

Lemma build_cube_agree texW texH cube s1 s2 :
  erase_view s1 = erase_view s2 ->
  agree (Plain.build_cube cube s1) (build_cube texW texH cube s2).
Proof.
  intros Hs. unfold agree, Plain.build_cube, build_cube. cbv [bind modify].
  destruct (nullish cube) eqn:Hc.
  - rewrite plain_cube_object_nullish, cube_object_nullish by exact Hc.
    cbn. rewrite !erase_count_cube, Hs. reflexivity.
  - destruct (cube_object_agree texW texH cube (count_cube s1) Hc)
      as (c1 & _ & H1 & _ & _).
    destruct (cube_object_agree texW texH cube (count_cube s2) Hc)
      as (c1' & c2 & H1' & H2 & He).
    rewrite H1, H2. cbn. rewrite !erase_root_add, !erase_count_cube, Hs.
    assert (c1 = c1') as ->.
    { rewrite plain_cube_object_ok in H1, H1' by exact Hc.
      rewrite place_ok in H1, H1' by exact Hc. congruence. }
    rewrite He. reflexivity.
Qed.

Lemma build_bone_agree texW texH entry s1 s2 :
  erase_view s1 = erase_view s2 ->
  agree (Plain.build_bone entry s1) (build_bone texW texH entry s2).
Proof.
  intros Hs. unfold Plain.build_bone, build_bone.
  apply get_agree; [exact Hs|]. intros t1 t2 Ht.
  destruct (negb (truthy _)).
  - unfold agree, ret. cbn. rewrite Ht. reflexivity.
  - apply iterate_agree; [exact Ht|]. intros l u1 u2 Hu.
    apply for_each_agree; [|exact Hu].
    intros x v1 v2 Hv. apply build_cube_agree. exact Hv.
Qed.

Lemma frame_agree s1 s2 :
  (forall r, setFromObject (erase_root r) = setFromObject r) ->
  erase_view s1 = erase_view s2 ->
  agree (frame s1) (frame s2).
Proof.
  intros Heng Hs.
  assert (setFromObject (simpleRoot s1) = setFromObject (simpleRoot s2)) as Hbox.
  { rewrite <- (Heng (simpleRoot s1)), <- (Heng (simpleRoot s2)).
    f_equal. change (simpleRoot (erase_view s1) = simpleRoot (erase_view s2)).
    rewrite Hs. reflexivity. }
  unfold agree, frame. cbv [bind get_state modify ret]. rewrite Hbox.
  destruct (Box3_isEmpty _); cbn [negb].
  - cbn [erase_res]. rewrite !erase_scene_add, Hs. reflexivity.
  - destruct (_ <? _)%float; cbn [erase_res];
      rewrite !erase_set_camera, !erase_set_target, !erase_scene_add,
        ?erase_root_setScalar, !erase_root_translate, Hs; reflexivity.
Qed.

(** C10. Given an engine whose bounding box does not read texture
    coordinates, the copy without UV mapping (src/app.js) and the copy
    with it end, on every document and from every store, in the same
    outcome and in stores that are equal once the [uv] arrays are
    forgotten: the same cube count, the same children with the same
    sizes, positions, groups and rotations, the same translation and scale
    of the root, the same scene, camera and orbit target; and the
    bounding boxes of the two roots are the same. *)
Theorem plain_and_textured_agree :
  (forall r, setFromObject (erase_root r) = setFromObject r) ->
  forall (texOk geoOk : bool) (geoJson : value) (st : View),
    erase_res (Plain.loadModel texOk geoOk geoJson st)
    = erase_res (loadModel texOk geoOk geoJson st) /\
    setFromObject
      (simpleRoot (store_of (Plain.loadModel texOk geoOk geoJson st)))
    = setFromObject
        (simpleRoot (store_of (loadModel texOk geoOk geoJson st))).
Proof.
  intros Heng texOk geoOk geoJson st.
  assert (agree (Plain.loadModel texOk geoOk geoJson st)
                (loadModel texOk geoOk geoJson st)) as Hagree; cycle 1.
  { split; [exact Hagree|]. unfold agree in Hagree.
    set (r1 := Plain.loadModel texOk geoOk geoJson st) in *.
    set (r2 := loadModel texOk geoOk geoJson st) in *.
    clearbody r1 r2.
    assert (erase_view (store_of r1) = erase_view (store_of r2)) as He
      by (destruct r1, r2; cbn [erase_res store_of] in *; congruence).
    rewrite <- (Heng (simpleRoot (store_of r1))),
      <- (Heng (simpleRoot (store_of r2))).
    change (setFromObject (simpleRoot (erase_view (store_of r1)))
            = setFromObject (simpleRoot (erase_view (store_of r2)))).
    rewrite He. reflexivity. }
  change (agree (Plain.loadModel texOk geoOk geoJson st)
                (loadModel texOk geoOk geoJson st)).
  unfold Plain.loadModel, loadModel.
  destruct (negb texOk || negb geoOk); [reflexivity|].
  apply get_agree; [reflexivity|]. intros t1 t2 Ht.
  apply get_index_agree; [exact Ht|]. clear t1 t2 Ht. intros t1 t2 Ht.
  apply get_agree; [exact Ht|]. clear t1 t2 Ht. intros t1 t2 Ht.
  apply get_agree; [exact Ht|]. clear t1 t2 Ht. intros t1 t2 Ht.
  apply get_agree; [exact Ht|]. clear t1 t2 Ht. intros t1 t2 Ht.
  apply get_agree; [exact Ht|]. clear t1 t2 Ht. intros t1 t2 Ht.
  apply iterate_agree; [exact Ht|]. clear t1 t2 Ht. intros items t1 t2 Ht.
  apply collect_bones_agree; [exact Ht|]. clear t1 t2 Ht. intros bones t1 t2 Ht.
  apply bind_agree.
  { unfold agree, modify. cbn [erase_res].
    rewrite !erase_with_locals, Ht. reflexivity. }
  clear t1 t2 Ht. intros _ t1 t2 Ht.
  apply bind_agree.
  { apply for_each_agree; [|exact Ht]. intros x u1 u2 Hu.
    apply build_bone_agree. exact Hu. }
  clear t1 t2 Ht. intros _ t1 t2 Ht.
  apply frame_agree; assumption.
Qed.

End Load.

(** * The loader on the scenarios of the specification *)

(** The sample engine does not read texture coordinates. *)
Lemma child_extent_erase {builtins : Builtins} (c : Child) :
  child_extent (erase_child c) = child_extent c.
Proof. destruct c; reflexivity. Qed.

Lemma flat_box_ignores_uv {builtins : Builtins} (r : Object3D) :
  flat_box (erase_root r) = flat_box r.
Proof.
  unfold flat_box, erase_root. cbn [children].
  generalize empty_box. induction (children r) as [|c kids IH]; intros acc.
  - reflexivity.
  - cbn [map fold_left]. rewrite child_extent_erase. apply IH.
Qed.

(** [Math.max] on signed zeros, on NaN and on no argument. *)
Example Math_max_examples :
  Math_max [0; 3; 2]%float = 3%float /\
  Math_max [(-0); 0]%float = 0%float /\
  Math_max [1; nan; 3]%float = nan /\
  Math_max [] = neg_infinity.
Proof. repeat split; reflexivity. Qed.

(** Scenario 1: one bone, one cube of size 2 at the origin.  One box at
    (1,1,1) with the default UVs and no group; the root is moved by
    (-1,-1,-1) and scaled by 30. *)
Example scenario_1_loads :
  exists st,
    @loadModel numeric_only sample_engine true true
      (model_json 64 64 [("body", [scenario_1])]) boot_view = Ok tt st /\
    cubeCount st = 1 /\
    simpleRoot st
    = mkObject3D (mkVec3 (-1) (-1) (-1))%float (mkVec3 30 30 30)%float
        [BareMesh (mkMesh (BoxGeometry (VNum 2) (VNum 2) (VNum 2))
                          (vec3_values (mkVec3 1 1 1)%float))] /\
    scene st = [simpleRoot st] /\
    controls_target st = (mkVec3 0 0 0)%float.
Proof. eexists. split; [vm_compute; reflexivity|]. repeat split. Qed.

(** Scenario 2 through the whole loader, with the texture size read from
    the document's description. *)
Example scenario_2_loads :
  exists st,
    @loadModel numeric_only sample_engine true true
      (model_json 64 64 [("body", [scenario_2])]) boot_view = Ok tt st /\
    children (simpleRoot st)
    = [BareMesh
         (mkMesh (mkGeometry (VNum 1) (VNum 1) (VNum 1)
                    (Some (net_uvs 64 64 false (bedrock_net 0 0 1 1 1))))
                 (vec3_values (mkVec3 0.5 0.5 0.5)%float))].
Proof. eexists. split; [vm_compute; reflexivity|]. reflexivity. Qed.

(** Scenario 3: a group at (1,1,1) turned by 90 degrees about Y, the mesh
    at (0,0,0) inside it. *)
Example scenario_3_loads :
  exists st,
    @loadModel numeric_only sample_engine true true
      (model_json 64 64 [("body", [scenario_3])]) boot_view = Ok tt st /\
    children (simpleRoot st)
    = [Group (vec3_values (mkVec3 1 1 1)%float)
             (mkEuler 0 (90 * DEG2RAD) 0 XYZ)
             (mkMesh (BoxGeometry (VNum 2) (VNum 2) (VNum 2))
                     (vec3_values (mkVec3 0 0 0)%float))].
Proof. eexists. split; [vm_compute; reflexivity|]. reflexivity. Qed.

(** Reading by index: arrays, strings, and objects by the property named
    after the index. *)
Example item_examples :
  item (VArr [VNum 1; VNum 2]) 1 = VNum 2 /\
  item (VArr [VNum 1; VNum 2]) 2 = VUndefined /\
  item (VStr "ab") 1 = VStr "b" /\
  item (VObj {[ "0" := VNull ]}) 0 = VNull /\
  item (VNum 5) 0 = VUndefined.
Proof. repeat split; reflexivity. Qed.

(** Scenario 4: an empty [bones] array.  No box, an empty bounding box,
    and the root goes into the scene with the camera as [bootstrap] left
    it. *)
Example scenario_4_loads :
  @loadModel numeric_only sample_engine true true (model_json 64 64 [])
    boot_view
  = Ok tt (scene_add boot_view).
Proof. vm_compute. reflexivity. Qed.

(** An empty geometry array throws like a missing one. *)
Example empty_geometry_doc_throws :
  @loadModel numeric_only sample_engine true true empty_geometry_doc boot_view
  = Throw TypeError boot_view.
Proof. vm_compute. reflexivity. Qed.

(** A response that is not [ok] stops the load before the document is
    read. *)
Example missing_files :
  @loadModel numeric_only sample_engine true false no_geometry_doc boot_view
  = Throw (Error "Missing files") boot_view.
Proof. reflexivity. Qed.

(** ** The claims at concrete inputs *)

Lemma face_uvs_scenario_2 :
  exists child,
    @cube_object numeric_only unit (VNum 64) (VNum 64)
      (cube_json scenario_2) tt = Ok child tt /\
    attributes_uv (geometry (child_mesh child))
    = Some (net_uvs 64 64 false (bedrock_net 0 0 1 1 1)).
Proof.
  exact (proj1 (@face_uvs_follow_bedrock_net numeric_only) unit scenario_2
           0%float 0%float 64%float 64%float tt eq_refl).
Defined.

Lemma rotated_group_scenario_3 :
  exists g rot,
    @cube_object numeric_only unit (VNum 64) (VNum 64)
      (cube_json scenario_3) tt
    = Ok (Group (vec3_values (mkVec3 1 1 1)%float) rot
            (mkMesh g (vec3_values (mkVec3 0 0 0)%float))) tt /\
    order rot = XYZ /\
    same_number (ex rot) 0 = true /\
    same_number (ey rot) (90 * DEG2RAD) = true /\
    same_number (ez rot) 0 = true.
Proof.
  exact (@pivot_or_rotation_wraps_in_group numeric_only unit (VNum 64)
           (VNum 64) scenario_3 tt eq_refl).
Defined.

Lemma no_geometry_doc_throws :
  @loadModel numeric_only sample_engine true true no_geometry_doc boot_view
  = Throw TypeError boot_view.
Proof.
  exact (@missing_or_empty_geometry_throws numeric_only sample_engine
           no_geometry_doc boot_view eq_refl).
Defined.

(** The claim C5 as the specification states it fails on a field that is
    a non-empty string: element 0 of ["x"] is ["x"], whose [description]
    and [bones] are [undefined], so the load goes through with no box. *)
Lemma string_geometry_loads :
  geometry_unusable string_geometry_doc = true /\
  @loadModel numeric_only sample_engine true true string_geometry_doc
    boot_view
  = Ok tt (scene_add boot_view).
Proof. split; vm_compute; reflexivity. Qed.



Lemma one_cube_camera :
  exists st,
    @frame sample_engine one_cube_view = Ok tt st /\
    camera st = (mkCamera (mkVec3 (0.8 * 4) (0.6 * 4) (1.2 * 4)) 0.1
                          (10 * 4 + 100))%float /\
    controls_target st = (mkVec3 0 0 0)%float.
Proof.
  exact (@camera_framing sample_engine one_cube_view eq_refl).
Defined.

Lemma long_uv_ignored :
  exists child,
    @cube_object numeric_only unit (VNum 64) (VNum 64)
      (cube_json long_uv_cube) tt = Ok child tt /\
    attributes_uv (geometry (child_mesh child)) = Some default_uvs /\
    @cube_object numeric_only unit (VNum 64) (VNum 64)
      (cube_json (without_uv long_uv_cube)) tt = Ok child tt.
Proof.
  exact (@ill_shaped_uv_is_ignored numeric_only unit long_uv_cube
           (VArr [VNum 0; VNum 0; VNum 0]) (VNum 64) (VNum 64) tt
           eq_refl eq_refl).
Defined.

Lemma flat_engine_copies_agree :
  erase_res (@Plain.loadModel numeric_only sample_engine true true
               (model_json 64 64 [("body", [scenario_2; scenario_3])])
               boot_view)
  = erase_res (@loadModel numeric_only sample_engine true true
                 (model_json 64 64 [("body", [scenario_2; scenario_3])])
                 boot_view) /\
  @flat_box numeric_only (simpleRoot (store_of
     (@Plain.loadModel numeric_only sample_engine true true
        (model_json 64 64 [("body", [scenario_2; scenario_3])]) boot_view)))
  = @flat_box numeric_only (simpleRoot (store_of
     (@loadModel numeric_only sample_engine true true
        (model_json 64 64 [("body", [scenario_2; scenario_3])]) boot_view))).
Proof.
  exact (@plain_and_textured_agree numeric_only sample_engine
           (@flat_box_ignores_uv numeric_only) true true
           (model_json 64 64 [("body", [scenario_2; scenario_3])])
           boot_view).
Defined.

(** * Further properties of the loader

    ** The load as a function of the document *)

Section MoreLoad.

Context {builtins : Builtins} {engine : Engine}.

Lemma collect_bones_table {S} items acc (s : S) :
  collect_bones items acc s =
  if forallb (fun b => negb (nullish b)) items
  then Ok (bone_table_from items acc) s else Throw TypeError s.
Proof.
  revert acc. induction items as [|b rest IH]; intros acc; [reflexivity|].
  cbn [collect_bones forallb bone_table_from fold_left].
  destruct (nullish b) eqn:Hb; cbn [negb andb].
  - cbv [bind]. unfold get. rewrite Hb. reflexivity.
  - set (p := js_or (field b "pivot") (vec_of_3 (VNum 0) (VNum 0) (VNum 0))).
    assert (nullish p = false) as Hp
      by (apply js_or_default_not_nullish; reflexivity).
    cbv [bind]. rewrite !(get_ok _ _ _ Hb). fold p.
    rewrite !(get_index_ok _ _ _ Hp). apply IH.
Qed.

Lemma iterate_elements {S} v (s : S) :
  iterate v s = match elements v with Some l => Ok l s | None => Throw TypeError s end.
Proof. destruct v; reflexivity. Qed.

Lemma loadModel_reading doc st :
  loadModel true true doc st =
  match first_geometry doc with
  | None => Throw TypeError st
  | Some geom =>
      match bone_items geom with
      | None => Throw TypeError st
      | Some items =>
          (for_each (bone_table items)
             (build_bone (texture_size geom "texture_width")
                         (texture_size geom "texture_height")) ;;; frame)
            (with_locals 0 new_Object3D st)
      end
  end.
Proof.
  unfold loadModel, first_geometry, bone_items. cbn [negb orb].
  cbv [bind]. unfold get at 1.
  destruct (nullish doc) eqn:Hd; [reflexivity|].
  cbv [ret]. unfold get_index at 1.
  destruct (nullish (field doc "minecraft:geometry")) eqn:Hg; [reflexivity|].
  cbv [ret]. set (geom := item _ 0).
  destruct (nullish geom) eqn:Hge.
  - unfold get at 1. rewrite Hge. reflexivity.
  - assert (nullish (js_or (field geom "description") (VObj ∅)) = false) as Hdesc
      by (apply js_or_default_not_nullish; reflexivity).
    repeat (rewrite get_ok by assumption).
    rewrite iterate_elements.
    destruct (elements _) as [items|]; [|reflexivity].
    rewrite collect_bones_table.
    destruct (forallb _ items); reflexivity.
Qed.

(** ** One cube, whatever the store *)

Lemma apply_uv_any_store {S T} texW texH cube sx sy sz g (s : S) (t : T) :
  apply_uv texW texH cube sx sy sz g s =
  match apply_uv texW texH cube sx sy sz g t with
  | Ok g' _ => Ok g' s
  | Throw e _ => Throw e s
  end.
Proof.
  unfold apply_uv, get, get_index. cbv [bind ret throw].
  destruct (nullish cube); [reflexivity|].
  destruct (Array_isArray _ && length_is _ 2); [|reflexivity].
  destruct (nullish (field cube "uv")); reflexivity.
Qed.

Lemma cube_object_any_store {S T} texW texH cube (s : S) (t : T) :
  cube_object texW texH cube s =
  match cube_object texW texH cube t with
  | Ok c _ => Ok c s
  | Throw e _ => Throw e s
  end.
Proof.
  destruct (nullish cube) eqn:Hc.
  - rewrite !cube_object_nullish by exact Hc. reflexivity.
  - destruct (cube_object_ok texW texH cube s Hc) as (g & Hg & _ & ->).
    destruct (cube_object_ok texW texH cube t Hc) as (g' & Hg' & _ & ->).
    rewrite (apply_uv_any_store _ _ _ _ _ _ _ s t), Hg' in Hg.
    injection Hg as <-.
    rewrite !place_ok by exact Hc. reflexivity.
Qed.

(** The loop body on any store, from its run on the empty one. *)
Lemma build_cube_any_store texW texH cube s :
  build_cube texW texH cube s =
  match cube_object texW texH cube tt with
  | Ok c _ => Ok tt (root_add c (count_cube s))
  | Throw e _ => Throw e (count_cube s)
  end.
Proof.
  unfold build_cube. cbv [bind modify].
  rewrite (cube_object_any_store _ _ _ (count_cube s) tt).
  destruct (cube_object texW texH cube tt); reflexivity.
Qed.

Lemma frame_returns s : exists s', frame s = Ok tt s'.
Proof.
  unfold frame. cbv [bind get_state modify ret].
  destruct (negb _); [|eauto]. destruct (0 <? _)%float; eauto.
Qed.

Lemma frame_scene s s' :
  frame s = Ok tt s' ->
  scene s' = scene s ++ [simpleRoot s'] /\
  cubeCount s' = cubeCount s /\
  children (simpleRoot s') = children (simpleRoot s).
Proof.
  unfold frame. cbv [bind get_state modify ret].
  destruct (negb _); [destruct (0 <? _)%float|]; intros [= <-]; auto.
Qed.

Lemma for_each_Ok_inv {A} (P : View -> Prop) (f : A -> M View unit) l :
  (forall x s s', P s -> f x s = Ok tt s' -> P s') ->
  forall s s', P s -> for_each l f s = Ok tt s' -> P s'.
Proof.
  intros Hf. induction l as [|x l IH]; intros s s' Hs H.
  - injection H as <-. exact Hs.
  - cbn [for_each] in H. apply bind_Ok_inv in H as ([] & s1 & H1 & H).
    eauto.
Qed.

Lemma build_cube_counted texW texH cube s s' :
  counted s -> build_cube texW texH cube s = Ok tt s' -> counted s'.
Proof.
  unfold counted. intros Hs. rewrite build_cube_any_store.
  destruct (cube_object _ _ _ tt); [|discriminate]. intros [= <-].
  view_simpl. rewrite length_app. cbn. lia.
Qed.

Lemma build_bone_counted texW texH entry s s' :
  counted s -> build_bone texW texH entry s = Ok tt s' -> counted s'.
Proof.
  intros Hs. unfold build_bone. cbv [bind]. unfold get.
  destruct (nullish _); [discriminate|]. cbv [ret].
  destruct (negb (truthy _)); [intros [= <-]; exact Hs|].
  rewrite iterate_elements. destruct (elements _); [|discriminate].
  apply for_each_Ok_inv; eauto using build_cube_counted.
Qed.

(** X1. A load that throws, at whatever point, has put nothing in the
    scene and has moved neither the camera nor the orbit target: no part
    of a model is shown. *)
Theorem failed_load_shows_nothing texOk geoOk doc st e st' :
  loadModel texOk geoOk doc st = Throw e st' ->
  scene st' = scene st /\ camera st' = camera st /\
  controls_target st' = controls_target st.
Proof.
  destruct texOk, geoOk; try (cbn; intros [= _ <-]; auto).
  rewrite loadModel_reading.
  destruct (first_geometry doc) as [geom|]; [|intros [= _ <-]; auto].
  destruct (bone_items geom) as [items|]; [|intros [= _ <-]; auto].
  cbv [bind].
  pose proof (for_each_store (framed_like (with_locals 0 new_Object3D st))
                (build_bone (texture_size geom "texture_width")
                            (texture_size geom "texture_height"))
                (bone_table items)
                (fun x s => build_bone_framed _ _ _ x s)
                _ (framed_like_refl _)) as Hinv.
  destruct (for_each _ _ _) as [[] s|e' s].
  - destruct (frame_returns s) as (s' & ->). discriminate.
  - intros [= _ <-]. destruct Hinv as (_ & _ & ? & ? & ?). auto.
Qed.

(** X2. A load that returns has added exactly one object to the scene,
    the root it built, after what the scene held; and the number of cubes
    it counted is the number of children of that root. *)
Theorem finished_load_adds_one_root doc st st' :
  loadModel true true doc st = Ok tt st' ->
  scene st' = scene st ++ [simpleRoot st'] /\
  cubeCount st' = length (children (simpleRoot st')).
Proof.
  rewrite loadModel_reading.
  destruct (first_geometry doc) as [geom|]; [|discriminate].
  destruct (bone_items geom) as [items|]; [|discriminate].
  intros H. apply bind_Ok_inv in H as ([] & s & Hs & H).
  pose proof (for_each_store (framed_like (with_locals 0 new_Object3D st))
                (build_bone (texture_size geom "texture_width")
                            (texture_size geom "texture_height"))
                (bone_table items)
                (fun x s => build_bone_framed _ _ _ x s)
                _ (framed_like_refl _)) as Hinv.
  rewrite Hs in Hinv. destruct Hinv as (_ & _ & Hscene & _).
  assert (counted s) as Hc.
  { revert Hs. apply for_each_Ok_inv; [|reflexivity].
    eauto using build_bone_counted. }
  apply frame_scene in H as (H1 & H2 & H3).
  rewrite H1, H2, H3. cbn in Hscene. rewrite Hscene. auto.
Qed.

(** ** Which documents load *)







Lemma Map_set_Forall (Q : value * BoneEntry -> Prop) k e m :
  (forall k', Q (k', e)) -> Forall Q m -> Forall Q (Map_set k e m).
Proof.
  intros He. induction 1 as [|[k1 e1] m H1 Hm IH]; cbn [Map_set].
  - repeat constructor. apply He.
  - destruct (same_value_zero k1 k); constructor; auto.
Qed.

Lemma bone_table_defs items acc :
  forallb (fun b => negb (nullish b)) items = true ->
  Forall (fun e => nullish (def e.2) = false) acc ->
  Forall (fun e => nullish (def e.2) = false) (bone_table_from items acc).
Proof.
  revert acc. induction items as [|b rest IH]; intros acc H Hacc; [exact Hacc|].
  cbn [forallb] in H. apply andb_prop in H as [Hb H].
  cbn [bone_table_from fold_left]. apply IH; [exact H|].
  apply Map_set_Forall; [|exact Hacc].
  intros k'. cbn. by destruct (nullish b).
Qed.



(** ** A load does not depend on what was loaded before *)

Lemma bind_alike {A B} (m1 m2 : M View A) (k1 k2 : A -> M View B) s1 s2 :
  alike (m1 s1) (m2 s2) ->
  (forall a t1 t2, same_locals t1 t2 -> alike (k1 a t1) (k2 a t2)) ->
  alike (bind m1 k1 s1) (bind m2 k2 s2).
Proof.
  unfold bind. intros Hm Hk.
  destruct (m1 s1) as [a1 t1|e1 t1], (m2 s2) as [a2 t2|e2 t2]; cbn in Hm;
    try contradiction.
  - destruct Hm as [-> Hm]. auto.
  - exact Hm.
Qed.

Lemma for_each_alike {A} (f : A -> M View unit) (l : list A) :
  (forall x t1 t2, same_locals t1 t2 -> alike (f x t1) (f x t2)) ->
  forall s1 s2, same_locals s1 s2 -> alike (for_each l f s1) (for_each l f s2).
Proof.
  intros Hf. induction l as [|x l IH]; intros s1 s2 Hs; cbn [for_each].
  - split; [reflexivity|exact Hs].
  - apply bind_alike; auto.
Qed.

Lemma build_cube_alike texW texH cube s1 s2 :
  same_locals s1 s2 ->
  alike (build_cube texW texH cube s1) (build_cube texW texH cube s2).
Proof.
  intros [Hn Hr]. rewrite !build_cube_any_store.
  destruct (cube_object _ _ _ tt); (split; [reflexivity|]);
    split; view_simpl; congruence.
Qed.

Lemma build_bone_alike texW texH entry s1 s2 :
  same_locals s1 s2 ->
  alike (build_bone texW texH entry s1) (build_bone texW texH entry s2).
Proof.
  intros Hs. unfold build_bone. cbv [bind]. unfold get.
  destruct (nullish _); [split; [reflexivity|exact Hs]|]. cbv [ret].
  destruct (negb (truthy _)); [split; [reflexivity|exact Hs]|].
  rewrite !iterate_elements.
  destruct (elements _); [|split; [reflexivity|exact Hs]].
  apply for_each_alike; auto using build_cube_alike.
Qed.

Lemma frame_alike s1 s2 :
  same_locals s1 s2 -> alike (frame s1) (frame s2).
Proof.
  intros [Hn Hr]. unfold frame. cbv [bind get_state modify ret]. rewrite Hr.
  destruct (negb _); [destruct (0 <? _)%float|];
    (split; [reflexivity|]); split; view_simpl; congruence.
Qed.

Lemma alike_same_outcome {A} (r1 r2 : Res View A) :
  alike r1 r2 -> same_outcome r1 r2.
Proof. destruct r1, r2; cbn; tauto. Qed.

(** X4. What a load builds does not depend on the store it starts from:
    from two stores, a load of the same document either returns twice,
    with the same root and the same count, or throws the same error
    twice.  The scene, the camera and what was loaded before never reach
    the model. *)
Theorem load_starts_afresh texOk geoOk doc st1 st2 :
  same_outcome (loadModel texOk geoOk doc st1) (loadModel texOk geoOk doc st2).
Proof.
  destruct texOk, geoOk; try reflexivity.
  rewrite !loadModel_reading.
  destruct (first_geometry doc) as [geom|]; [|reflexivity].
  destruct (bone_items geom) as [items|]; [|reflexivity].
  apply alike_same_outcome, bind_alike.
  - apply for_each_alike; [|split; reflexivity].
    auto using build_bone_alike.
  - auto using frame_alike.
Qed.

End MoreLoad.

(** ** Bones given with their names *)

Section Named.

Context {builtins : Builtins} {engine : Engine}.

Lemma distinct_elem n names : n ∈ distinct names <-> n ∈ names.
Proof.
  induction names as [|a r IH]; cbn [distinct]; [reflexivity|].
  rewrite !elem_of_cons, list_elem_of_filter, IH.
  destruct (decide (n = a)); tauto.
Qed.

Lemma distinct_NoDup names : NoDup (distinct names).
Proof.
  induction names as [|a r IH]; cbn [distinct]; constructor.
  - rewrite list_elem_of_filter. tauto.
  - by apply NoDup_filter.
Qed.

Lemma distinct_snoc names n :
  distinct (names ++ [n])
  = if decide (n ∈ names) then distinct names else distinct names ++ [n].
Proof.
  induction names as [|a r IH]; cbn [distinct app].
  - destruct (decide (n ∈ [])) as [H|H]; [by apply elem_of_nil in H|reflexivity].
  - rewrite IH.
    destruct (decide (n ∈ r)) as [Hr|Hr], (decide (n ∈ a :: r)) as [Har|Har];
      rewrite elem_of_cons in Har; try tauto.
    + rewrite filter_app, filter_cons, filter_nil.
      destruct Har as [->|]; [|tauto].
      destruct (decide (a <> a)); [congruence|]. by rewrite app_nil_r.
    + rewrite filter_app, filter_cons, filter_nil.
      destruct (decide (n <> a)); [reflexivity|]. tauto.
Qed.

Lemma filter_all {A} (P : A -> Prop) `{!forall x, Decision (P x)} (l : list A) :
  Forall P l -> filter P l = l.
Proof.
  induction 1 as [|x l Hx Hl IH]; [reflexivity|].
  rewrite filter_cons_True by exact Hx. by rewrite IH.
Qed.

Lemma distinct_of_NoDup names : NoDup names -> distinct names = names.
Proof.
  induction 1 as [|a r Ha Hr IH]; cbn [distinct]; [reflexivity|].
  rewrite IH. f_equal. apply filter_all, Forall_forall.
  intros m Hm ->. contradiction.
Qed.

Lemma last_cubes_snoc m bones n cs :
  last_cubes m (bones ++ [(n, cs)])
  = if decide (m = n) then cs else last_cubes m bones.
Proof.
  unfold last_cubes. rewrite filter_app, filter_cons, filter_nil. cbn [fst].
  destruct (decide (n = m)) as [->|Hn].
  - rewrite decide_True by reflexivity. by rewrite last_snoc.
  - rewrite decide_False by auto. by rewrite app_nil_r.
Qed.

Lemma last_cubes_of_NoDup bones n cs :
  NoDup bones.*1 -> (n, cs) ∈ bones -> last_cubes n bones = cs.
Proof.
  induction bones as [|[m ds] r IH] using rev_ind; [by intros _ ?%elem_of_nil|].
  rewrite fmap_app, last_cubes_snoc. cbn. intros Hnd Hin.
  apply NoDup_app in Hnd as (Hr & Hm & _).
  apply elem_of_app in Hin as [Hin|Hin].
  - rewrite decide_False; [auto|]. intros ->.
    apply (Hm m); [|rewrite elem_of_cons; tauto]. apply list_elem_of_fmap. by exists (m, cs).
  - apply list_elem_of_singleton in Hin as [= -> ->].
    by rewrite decide_True.
Qed.

Lemma effective_bones_of_NoDup bones :
  NoDup bones.*1 -> effective_bones bones = bones.
Proof.
  intros Hnd. unfold effective_bones. rewrite distinct_of_NoDup by exact Hnd.
  rewrite <- list_fmap_compose.
  rewrite <- (list_fmap_id bones) at 2. apply list_fmap_ext.
  intros i [n cs] Hi. cbn. f_equal.
  apply last_cubes_of_NoDup; [exact Hnd|]. by eapply list_elem_of_lookup_2.
Qed.

Lemma upsert_fmap (f : string -> list Cube) n cs l :
  NoDup l ->
  upsert n cs ((fun m => (m, f m)) <$> l)
  = if decide (n ∈ l)
    then (fun m => (m, if decide (m = n) then cs else f m)) <$> l
    else ((fun m => (m, f m)) <$> l) ++ [(n, cs)].
Proof.
  induction 1 as [|a r Ha Hr IH].
  - destruct (decide (n ∈ [])) as [H|H]; [by apply elem_of_nil in H|reflexivity].
  - rewrite !fmap_cons. cbn [upsert]. rewrite IH.
    destruct (String.eqb_spec a n) as [->|Han],
             (decide (n ∈ r)) as [Hn|Hn],
             (decide (n ∈ _ :: r)) as [Hn'|Hn'];
      rewrite elem_of_cons in Hn'; try tauto; try congruence.
    + destruct (decide (n = n)); [|congruence]. f_equal.
      apply list_fmap_ext. intros i m Hm.
      destruct (decide (m = n)) as [->|]; [|reflexivity].
      exfalso. apply Ha. by eapply list_elem_of_lookup_2.
    + destruct (decide (a = n)); [congruence|]. reflexivity.
    + destruct Hn' as [->|]; [congruence|tauto].
Qed.

Lemma effective_bones_snoc bones n cs :
  effective_bones (bones ++ [(n, cs)]) = upsert n cs (effective_bones bones).
Proof.
  unfold effective_bones.
  rewrite (upsert_fmap (fun m => last_cubes m bones)) by apply distinct_NoDup.
  rewrite fmap_app. cbn [fmap list_fmap fst]. rewrite distinct_snoc.
  destruct (decide (n ∈ bones.*1)) as [Hn|Hn].
  - rewrite decide_True by (by apply distinct_elem).
    apply list_fmap_ext. intros i m _. by rewrite last_cubes_snoc.
  - rewrite decide_False by (by rewrite distinct_elem).
    rewrite fmap_app. cbn [fmap list_fmap].
    rewrite last_cubes_snoc, decide_True by reflexivity. f_equal.
    apply list_fmap_ext. intros i m Hm. rewrite last_cubes_snoc.
    rewrite decide_False; [reflexivity|]. intros ->.
    apply Hn, distinct_elem. by eapply list_elem_of_lookup_2.
Qed.

Lemma bone_json_name n cs : field (bone_json n cs) "name" = VStr n.
Proof. reflexivity. Qed.

Lemma bone_json_cubes n cs :
  field (bone_json n cs) "cubes" = VArr (cube_json <$> cs).
Proof. reflexivity. Qed.

Lemma Map_set_named n cs l :
  Map_set (VStr n) (bone_entry (bone_json n cs)) (named_entry <$> l)
  = named_entry <$> upsert n cs l.
Proof.
  induction l as [|[m ds] r IH]; cbn [fmap list_fmap Map_set upsert];
    [reflexivity|].
  unfold named_entry at 1. cbn [fst snd same_value_zero].
  destruct (String.eqb_spec m n) as [->|Hmn]; [reflexivity|].
  cbn [fmap list_fmap]. f_equal. exact IH.
Qed.

Lemma bone_table_named bones :
  bone_table ((fun b => bone_json b.1 b.2) <$> bones)
  = named_entry <$> effective_bones bones.
Proof.
  induction bones as [|[n cs] r IH] using rev_ind; [reflexivity|].
  rewrite fmap_app, effective_bones_snoc, <- Map_set_named, <- IH.
  unfold bone_table, bone_table_from. rewrite fold_left_app. reflexivity.
Qed.

Lemma with_more_app k1 k2 s : with_more (k1 ++ k2) s = with_more k2 (with_more k1 s).
Proof. apply fold_left_app. Qed.

Lemma with_more_children kids s :
  children (simpleRoot (with_more kids s)) = children (simpleRoot s) ++ kids.
Proof.
  revert s. induction kids as [|k kids IH]; intros s; cbn [with_more fold_left].
  - by rewrite app_nil_r.
  - fold (with_more kids (root_add k (count_cube s))). rewrite IH.
    view_simpl. by rewrite <- app_assoc.
Qed.

Lemma cubes_built texW texH cs s :
  exists kids,
    Forall2 (fun c k => cube_object texW texH (cube_json c) tt = Ok k tt) cs kids /\
    for_each (cube_json <$> cs) (build_cube texW texH) s = Ok tt (with_more kids s).
Proof.
  revert s. induction cs as [|c cs IH]; intros s.
  - exists []. split; [constructor|reflexivity].
  - destruct (cube_object_total texW texH (cube_json c) tt
                (cube_json_not_nullish c)) as (k & Hk).
    destruct (IH (root_add k (count_cube s))) as (kids & Hkids & Hrun).
    exists (k :: kids). split; [by constructor|].
    rewrite fmap_cons. cbn [for_each]. unfold bind.
    rewrite build_cube_any_store, Hk. exact Hrun.
Qed.

Lemma bones_built texW texH eff s :
  exists kids,
    Forall2 (fun c k => cube_object texW texH (cube_json c) tt = Ok k tt)
            (concat eff.*2) kids /\
    for_each (named_entry <$> eff) (build_bone texW texH) s
    = Ok tt (with_more kids s).
Proof.
  revert s. induction eff as [|[n cs] eff IH]; intros s.
  - exists []. split; [constructor|reflexivity].
  - destruct (cubes_built texW texH cs s) as (k1 & H1 & Hrun1).
    destruct (IH (with_more k1 s)) as (k2 & H2 & Hrun2).
    exists (k1 ++ k2). split; [by apply Forall2_app|].
    rewrite fmap_cons. cbn [for_each]. unfold bind.
    assert (build_bone texW texH (named_entry (n, cs)) s
            = Ok tt (with_more k1 s)) as -> by (rewrite <- Hrun1; reflexivity).
    rewrite with_more_app. exact Hrun2.
Qed.

Lemma first_geometry_document geom :
  nullish geom = false -> first_geometry (document geom) = Some geom.
Proof.
  intros H. unfold first_geometry, document.
  change (field (VObj {[ "minecraft:geometry" := VArr [geom] ]})
            "minecraft:geometry") with (VArr [geom]).
  change (item (VArr [geom]) 0) with geom.
  cbn [nullish]. by rewrite H.
Qed.

Lemma geometry_json_bones d bones :
  bone_items (geometry_json d bones)
  = Some ((fun b => bone_json b.1 b.2) <$> bones).
Proof.
  unfold bone_items.
  replace (field (geometry_json d bones) "bones")
    with (VArr ((fun b => bone_json b.1 b.2) <$> bones))
    by (by destruct d).
  cbn [js_or truthy elements].
  replace (forallb _ _) with true; [reflexivity|].
  symmetry. apply forallb_forall. intros x Hx.
  apply in_map_iff in Hx as (b & <- & _). reflexivity.
Qed.

Lemma geometry_json_texture_width d bones :
  texture_size (geometry_json d bones) "texture_width"
  = VNum (declared (d ≫= fst)).
Proof.
  destruct d as [[[w|] [h|]]|]; try reflexivity;
    change (texture_size _ _) with (js_or (VNum w) (VNum 64));
    cbn [mbind option_bind fst declared]; unfold js_or;
    destruct (truthy (VNum w)); reflexivity.
Qed.

Lemma geometry_json_texture_height d bones :
  texture_size (geometry_json d bones) "texture_height"
  = VNum (declared (d ≫= snd)).
Proof.
  destruct d as [[[w|] [h|]]|]; try reflexivity;
    change (texture_size _ _) with (js_or (VNum h) (VNum 64));
    cbn [mbind option_bind snd declared]; unfold js_or;
    destruct (truthy (VNum h)); reflexivity.
Qed.

Lemma document_builds d bones st :
  exists kids,
    Forall2 (fun c k => cube_object (VNum (declared (d ≫= fst)))
                                    (VNum (declared (d ≫= snd)))
                                    (cube_json c) tt = Ok k tt)
            (concat (effective_bones bones).*2) kids /\
    loadModel true true (document (geometry_json d bones)) st
    = frame (with_more kids (with_locals 0 new_Object3D st)).
Proof.
  rewrite loadModel_reading, first_geometry_document by reflexivity.
  rewrite geometry_json_bones, geometry_json_texture_width,
    geometry_json_texture_height, bone_table_named.
  destruct (bones_built (VNum (declared (d ≫= fst)))
              (VNum (declared (d ≫= snd))) (effective_bones bones)
              (with_locals 0 new_Object3D st)) as (kids & Hkids & Hrun).
  exists kids. split; [exact Hkids|]. cbv [bind]. by rewrite Hrun.
Qed.

Lemma frame_keeps_children kids st :
  exists st',
    frame (with_more kids (with_locals 0 new_Object3D st)) = Ok tt st' /\
    children (simpleRoot st') = kids.
Proof.
  destruct (frame_returns (with_more kids (with_locals 0 new_Object3D st)))
    as (st' & Hf).
  exists st'. split; [exact Hf|].
  apply frame_scene in Hf as (_ & _ & ->). by rewrite with_more_children.
Qed.

(** X5. When the names of the bones differ from one another, the load
    returns and the root has one child for each cube of the document, in
    the order of the document: bone after bone, cube after cube, each
    child the one [cube_object] builds for its cube. *)
Theorem every_cube_gives_one_box_in_order texW texH bones st :
  NoDup bones.*1 ->
  truthy (VNum texW) = true -> truthy (VNum texH) = true ->
  exists st',
    loadModel true true (model_json texW texH bones) st = Ok tt st' /\
    Forall2 (fun c k => cube_object (VNum texW) (VNum texH) (cube_json c) tt
                        = Ok k tt)
            (concat bones.*2) (children (simpleRoot st')).
Proof.
  intros Hnd Hw Hh.
  destruct (document_builds (Some (Some texW, Some texH)) bones st)
    as (kids & Hkids & Hrun).
  destruct (frame_keeps_children kids st) as (st' & Hf & Hc).
  exists st'. split; [by rewrite <- Hf|].
  rewrite effective_bones_of_NoDup in Hkids by exact Hnd.
  cbn [mbind option_bind fst snd declared] in Hkids.
  rewrite Hw, Hh in Hkids. by rewrite Hc.
Qed.

(** X6. Bones are kept in a map by name, so of several bones with one
    name a single one is built: at the place of the first, with the cubes
    of the last.  For every document given by its description and its
    named bones the load returns, and the children of the root are the
    boxes of the cubes of [effective_bones], in that order. *)
Theorem bones_of_one_name_build_the_last_one d bones st :
  exists st',
    loadModel true true (document (geometry_json d bones)) st = Ok tt st' /\
    Forall2 (fun c k => cube_object (VNum (declared (d ≫= fst)))
                                    (VNum (declared (d ≫= snd)))
                                    (cube_json c) tt = Ok k tt)
            (concat (effective_bones bones).*2)
            (children (simpleRoot st')).
Proof.
  destruct (document_builds d bones st) as (kids & Hkids & Hrun).
  destruct (frame_keeps_children kids st) as (st' & Hf & Hc).
  exists st'. split; [by rewrite Hrun|]. by rewrite Hc.
Qed.

(** X7. A description that is missing, or that gives no
    [texture_width] or [texture_height], or gives zero, loads as the same
    document with 64 in its place. *)
Theorem texture_size_defaults_to_64 d bones st :
  loadModel true true (document (geometry_json d bones)) st
  = loadModel true true
      (model_json (declared (d ≫= fst)) (declared (d ≫= snd)) bones) st.
Proof.
  change (model_json ?w ?h bones)
    with (document (geometry_json (Some (Some w, Some h)) bones)).
  rewrite !loadModel_reading, !first_geometry_document by reflexivity.
  rewrite !geometry_json_bones, !geometry_json_texture_width,
    !geometry_json_texture_height.
  cbn [mbind option_bind fst snd].
  assert (forall x, declared (Some (declared x)) = declared x) as Hdd.
  { intros [w|]; [|reflexivity]. cbn [declared].
    destruct (truthy (VNum w)) eqn:Hw; [by rewrite Hw|reflexivity]. }
  rewrite !Hdd. reflexivity.
Qed.

End Named.

(** ** Cubes with missing or odd fields *)

Lemma nan_is_nan x : Prim2SF x = S754_nan -> is_nan x = true.
Proof.
  intros H. unfold is_nan. rewrite FloatAxioms.eqb_spec, H. reflexivity.
Qed.

Lemma add_nan x : Prim2SF (x + nan) = S754_nan.
Proof.
  rewrite add_spec. change (Prim2SF nan) with S754_nan.
  destruct (Prim2SF x); reflexivity.
Qed.

Lemma nan_sub x y : Prim2SF x = S754_nan -> Prim2SF (x - y) = S754_nan.
Proof. intros H. rewrite sub_spec, H. reflexivity. Qed.

Section MoreCubes.

Context {builtins : Builtins}.

(** X8. A cube whose [origin], [size], [pivot] and [rotation] are
    missing or falsy and whose [uv] is not a pair is built as the box of
    size 1 with its corner at the origin: a bare mesh at (0.5, 0.5, 0.5)
    with the default UVs.  This holds for an empty object and also for a
    number, a boolean, a string in the place of a cube. *)
Theorem cube_without_fields_is_unit_box {S} texW texH cube (st : S) :
  nullish cube = false ->
  all_falsy cube ["origin"; "size"; "pivot"; "rotation"] = true ->
  Array_isArray (field cube "uv") && length_is (field cube "uv") 2 = false ->
  cube_object texW texH cube st
  = Ok (BareMesh (mkMesh (BoxGeometry (VNum 1) (VNum 1) (VNum 1))
                         (vec3_values (mkVec3 0.5 0.5 0.5)%float))) st.
Proof.
  intros Hc Hf Huv. unfold all_falsy in Hf. cbn [forallb] in Hf.
  apply andb_prop in Hf as [Ho%negb_true_iff Hf].
  apply andb_prop in Hf as [Hs%negb_true_iff Hf].
  apply andb_prop in Hf as [Hp%negb_true_iff Hf].
  apply andb_prop in Hf as [Hr%negb_true_iff _].
  rewrite cube_object_skip, plain_cube_object_ok, place_ok by assumption.
  unfold js_or. rewrite Ho, Hs, Hp. cbv iota. rewrite Hr. reflexivity.
Qed.

Lemma field_set_field_ne k v o k' :
  k <> k' -> field (set_field k v o) k' = field o k'.
Proof.
  intros Hk. destruct o; try reflexivity. cbn [set_field field].
  by rewrite lookup_insert_ne.
Qed.

Lemma field_set_field k v m : field (set_field k v (VObj m)) k = v.
Proof. cbn [set_field field]. by rewrite lookup_insert_eq. Qed.

Lemma pair_shape v :
  Array_isArray v && length_is v 2 = true -> exists a b, v = VArr [a; b].
Proof.
  destruct v as [| | | | |l|]; try discriminate.
  destruct l as [|a [|b [|c l]]]; try discriminate. eauto.
Qed.

(** X9. Only the truthiness of [mirror] is read: a cube with any value
    as its [mirror] is built as the same cube with [true] or [false]. *)
Theorem mirror_is_read_as_a_boolean {S} texW texH cube m (st : S) :
  cube_object texW texH (set_field "mirror" m cube) st
  = cube_object texW texH (set_field "mirror" (VBool (truthy m)) cube) st.
Proof.
  destruct cube as [| | | | | |o]; try reflexivity.
  set (c1 := set_field "mirror" m (VObj o)).
  set (c2 := set_field "mirror" (VBool (truthy m)) (VObj o)).
  assert (forall k, "mirror" <> k -> field c1 k = field c2 k) as Hf.
  { intros k Hk. unfold c1, c2. by rewrite !field_set_field_ne. }
  assert (nullish c1 = false) as H1 by reflexivity.
  assert (nullish c2 = false) as H2 by reflexivity.
  destruct (Array_isArray (field c1 "uv") && length_is (field c1 "uv") 2) eqn:Huv.
  - destruct (pair_shape _ Huv) as (u & v & Hp).
    rewrite (cube_object_pair _ _ c1 u v) by assumption.
    rewrite (Hf "uv") in Hp by discriminate.
    rewrite (cube_object_pair _ _ c2 u v) by assumption.
    rewrite !place_ok by assumption.
    rewrite !(Hf "origin"), !(Hf "size"), !(Hf "pivot"), !(Hf "rotation")
      by discriminate.
    replace (field c1 "mirror") with m by (symmetry; apply field_set_field).
    replace (field c2 "mirror") with (VBool (truthy m))
      by (symmetry; apply field_set_field).
    replace (truthy (arg_or_default (VBool (truthy m)) (VBool false)))
      with (truthy (arg_or_default m (VBool false))) by (by destruct m).
    reflexivity.
  - rewrite (cube_object_skip _ _ c1) by assumption.
    rewrite (Hf "uv") in Huv by discriminate.
    rewrite (cube_object_skip _ _ c2) by assumption.
    rewrite !plain_cube_object_ok, !place_ok by assumption.
    rewrite !(Hf "origin"), !(Hf "size"), !(Hf "pivot"), !(Hf "rotation")
      by discriminate.
    reflexivity.
Qed.

(** X10. A [size] of two numbers is not rejected: the box gets the
    engine's default depth 1, and the mesh a position whose z is NaN. *)
Theorem size_without_depth {S} texW texH (c : Cube) (w h : float) (st : S) :
  exists child z,
    cube_object texW texH
      (set_field "size" (VArr [VNum w; VNum h]) (cube_json c)) st
    = Ok child st /\
    depth (geometry (child_mesh child)) = VNum 1 /\
    vz (mesh_position (child_mesh child)) = VNum z /\
    is_nan z = true.
Proof.
  set (cube := set_field "size" (VArr [VNum w; VNum h]) (cube_json c)).
  assert (nullish cube = false) as Hc by reflexivity.
  assert (field cube "size" = VArr [VNum w; VNum h]) as Hs
    by apply field_set_field.
  assert (forall k, "size" <> k -> field cube k = field (cube_json c) k) as Hf.
  { intros k Hk. unfold cube. by rewrite field_set_field_ne. }
  destruct (cube_object_ok texW texH cube st Hc) as (g & _ & Hg & ->).
  rewrite place_ok by exact Hc.
  rewrite Hs, (Hf "origin"), (Hf "pivot"), (Hf "rotation") by discriminate.
  rewrite Hs in Hg.
  rewrite cube_json_origin, cube_json_pivot, cube_json_rotation.
  assert (depth g = VNum 1) as Hd.
  { change (depth g) with (depth (erase_geometry g)). rewrite Hg. reflexivity. }
  destruct c as [[o|] s [p|] [r|] u m]; cbn [from_option];
    eexists; eexists; (split; [reflexivity|]); (split; [exact Hd|]);
    (split; [reflexivity|]).
  all: cbn [ToNumber ToPrimitive].
  all: try apply nan_is_nan; repeat apply nan_sub; try apply add_nan.
Qed.



End MoreCubes.

(** ** The UV arrays of a whole load *)

Section MoreUV.

Context {builtins : Builtins} {engine : Engine}.

Lemma child_mesh_place {S} cube g center (s : S) c s' :
  place cube g center s = Ok c s' -> geometry (child_mesh c) = g.
Proof.
  destruct (nullish cube) eqn:Hc.
  - unfold place. cbv [bind]. unfold get. rewrite Hc. discriminate.
  - rewrite place_ok by exact Hc.
    destruct (truthy (js_or _ _)); intros [= <- _]; reflexivity.
Qed.

Lemma cube_object_uvs {S} texW texH cube (s : S) c s' :
  cube_object texW texH cube s = Ok c s' -> has_48_uvs c.
Proof.
  destruct (nullish cube) eqn:Hc;
    [rewrite cube_object_nullish by exact Hc; discriminate|].
  destruct (Array_isArray (field cube "uv") && length_is (field cube "uv") 2)
    eqn:Huv.
  - destruct (pair_shape _ Huv) as (u & v & Hp).
    rewrite (cube_object_pair _ _ cube u v) by assumption.
    intros H. apply child_mesh_place in H. unfold has_48_uvs. rewrite H.
    eexists. split; reflexivity.
  - rewrite cube_object_skip, plain_cube_object_ok by assumption.
    intros H. apply child_mesh_place in H. unfold has_48_uvs. rewrite H.
    eexists. split; reflexivity.
Qed.

Lemma plain_cube_object_uvs {S} cube (s : S) c s' :
  Plain.cube_object cube s = Ok c s' -> has_default_uvs c.
Proof.
  destruct (nullish cube) eqn:Hc;
    [rewrite plain_cube_object_nullish by exact Hc; discriminate|].
  rewrite plain_cube_object_ok by assumption.
  intros H. apply child_mesh_place in H. unfold has_default_uvs. rewrite H.
  reflexivity.
Qed.

Lemma build_cube_children (Q : Child -> Prop) texW texH cube s s' :
  (forall c (t t' : View), cube_object texW texH cube t = Ok c t' -> Q c) ->
  Forall Q (children (simpleRoot s)) ->
  build_cube texW texH cube s = Ok tt s' ->
  Forall Q (children (simpleRoot s')).
Proof.
  intros HQ Hs. unfold build_cube. cbv [bind modify].
  destruct (cube_object _ _ _ _) as [c t|] eqn:Hc; [|discriminate].
  intros [= <-]. view_simpl. apply Forall_app. split.
  - destruct (nullish cube) eqn:Hn.
    + rewrite cube_object_nullish in Hc by exact Hn. discriminate.
    + destruct (cube_object_total texW texH cube (count_cube s) Hn) as (c' & Hc').
      rewrite Hc' in Hc. injection Hc as _ <-. exact Hs.
  - repeat constructor. eauto.
Qed.

Lemma build_bone_children (Q : Child -> Prop) texW texH entry s s' :
  (forall cube c (t t' : View), cube_object texW texH cube t = Ok c t' -> Q c) ->
  Forall Q (children (simpleRoot s)) ->
  build_bone texW texH entry s = Ok tt s' ->
  Forall Q (children (simpleRoot s')).
Proof.
  intros HQ Hs. unfold build_bone. cbv [bind]. unfold get.
  destruct (nullish _); [discriminate|]. cbv [ret].
  destruct (negb (truthy _)); [intros [= <-]; exact Hs|].
  rewrite iterate_elements. destruct (elements _); [|discriminate].
  apply (for_each_Ok_inv (fun s => Forall Q (children (simpleRoot s))));
    [|exact Hs].
  intros x t t' Ht. apply build_cube_children; eauto.
Qed.

(** X11. After a load that returns, every box of the root has a [uv]
    array of forty-eight numbers, whatever the [uv] fields of the
    document held. *)
Theorem every_box_has_48_uv_numbers doc st st' :
  loadModel true true doc st = Ok tt st' ->
  Forall has_48_uvs (children (simpleRoot st')).
Proof.
  rewrite loadModel_reading.
  destruct (first_geometry doc) as [geom|]; [|discriminate].
  destruct (bone_items geom) as [items|]; [|discriminate].
  intros H. apply bind_Ok_inv in H as ([] & s & Hs & H).
  apply frame_scene in H as (_ & _ & ->).
  revert Hs.
  apply (for_each_Ok_inv (fun s => Forall has_48_uvs (children (simpleRoot s))));
    [|constructor].
  intros x t t' Ht. apply build_bone_children; [|exact Ht].
  intros cube c u u'. apply cube_object_uvs.
Qed.

Lemma plain_build_cube_children cube s s' :
  Forall has_default_uvs (children (simpleRoot s)) ->
  Plain.build_cube cube s = Ok tt s' ->
  Forall has_default_uvs (children (simpleRoot s')).
Proof.
  intros Hs. unfold Plain.build_cube. cbv [bind modify].
  destruct (Plain.cube_object _ _) as [c t|] eqn:Hc; [|discriminate].
  intros [= <-]. view_simpl. apply Forall_app. split.
  - destruct (nullish cube) eqn:Hn.
    + rewrite plain_cube_object_nullish in Hc by exact Hn. discriminate.
    + rewrite plain_cube_object_ok, place_ok in Hc by exact Hn.
      injection Hc as _ <-. exact Hs.
  - repeat constructor. eapply plain_cube_object_uvs, Hc.
Qed.

Lemma plain_build_bone_children entry s s' :
  Forall has_default_uvs (children (simpleRoot s)) ->
  Plain.build_bone entry s = Ok tt s' ->
  Forall has_default_uvs (children (simpleRoot s')).
Proof.
  intros Hs. unfold Plain.build_bone. cbv [bind]. unfold get.
  destruct (nullish _); [discriminate|]. cbv [ret].
  destruct (negb (truthy _)); [intros [= <-]; exact Hs|].
  rewrite iterate_elements. destruct (elements _); [|discriminate].
  apply (for_each_Ok_inv (fun s => Forall has_default_uvs (children (simpleRoot s))));
    [|exact Hs].
  intros x t t' Ht. by apply plain_build_cube_children.
Qed.

(** X13. In the copy without the UV block (src/app.js) every box of a
    load that returns has the default UVs. *)
Theorem plain_copy_keeps_default_uvs texOk geoOk doc st st' :
  Plain.loadModel texOk geoOk doc st = Ok tt st' ->
  Forall has_default_uvs (children (simpleRoot st')).
Proof.
  unfold Plain.loadModel. destruct (negb texOk || negb geoOk); [discriminate|].
  intros H.
  apply bind_Ok_inv in H as (g & s1 & _ & H).
  apply bind_Ok_inv in H as (geom & s2 & _ & H).
  apply bind_Ok_inv in H as (d & s3 & _ & H).
  apply bind_Ok_inv in H as (tw & s4 & _ & H).
  apply bind_Ok_inv in H as (th & s5 & _ & H).
  apply bind_Ok_inv in H as (bs & s6 & _ & H).
  apply bind_Ok_inv in H as (items & s7 & _ & H).
  apply bind_Ok_inv in H as (bones & s8 & _ & H).
  apply bind_Ok_inv in H as ([] & s9 & H1 & H).
  cbv [modify] in H1. injection H1 as <-.
  apply bind_Ok_inv in H as ([] & s10 & H2 & H).
  apply frame_scene in H as (_ & _ & ->).
  revert H2.
  apply (for_each_Ok_inv (fun s => Forall has_default_uvs (children (simpleRoot s))));
    [|constructor].
  intros x t t' Ht. by apply plain_build_bone_children.
Qed.

End MoreUV.

(** ** The largest extent *)

Lemma Math_max_nan a b c :
  is_nan a || is_nan b || is_nan c = true -> Math_max [a; b; c] = nan.
Proof.
  intros H. unfold Math_max. cbn [fold_left].
  assert (forall x, max_step nan x = nan) as Hn by reflexivity.
  destruct (is_nan a) eqn:Ha.
  - replace (max_step neg_infinity a) with nan
      by (unfold max_step; rewrite Ha; reflexivity).
    by rewrite !Hn.
  - destruct (is_nan b) eqn:Hb.
    + replace (max_step (max_step neg_infinity a) b) with nan
        by (unfold max_step at 1; rewrite Hb, orb_true_r; reflexivity).
      by rewrite Hn.
    + cbn [orb] in H. unfold max_step at 1. rewrite H, orb_true_r. reflexivity.
Qed.

Section MoreFrame.

Context {engine : Engine}.

(** X14. The number the model is scaled and the camera is placed by is
    the largest of the three extents of the bounding box: it is one of
    them and none is larger.  When it is positive the scale is 60 divided
    by it, and the camera sits at 1.6, 1.2 and 2.4 times it. *)
Theorem model_is_scaled_by_its_largest_extent (st : View) :
  let size := Box3_getSize (setFromObject (simpleRoot st)) in
  Box3_isEmpty (setFromObject (simpleRoot st)) = false ->
  no_nan size = true ->
  exists st' m,
    frame st = Ok tt st' /\
    (m = vx size \/ m = vy size \/ m = vz size) /\
    (vx size <=? m)%float = true /\
    (vy size <=? m)%float = true /\
    (vz size <=? m)%float = true /\
    ((0 <? m)%float = true ->
       scale (simpleRoot st') = (mkVec3 (60 / m) (60 / m) (60 / m))%float) /\
    camera_position (camera st')
    = (mkVec3 (2 * m * 0.8) (2 * m * 0.6) (2 * m * 1.2))%float.
Proof.
  intros size He Hn.
  unfold no_nan in Hn. apply negb_true_iff in Hn.
  apply orb_false_elim in Hn as [Hn Hz]. apply orb_false_elim in Hn as [Hx Hy].
  destruct (Math_max_is_largest _ _ _ Hx Hy Hz) as (Hm & Hlx & Hly & Hlz).
  unfold frame. cbv [bind get_state modify ret]. rewrite He. cbn [negb].
  fold size. set (m := Math_max [vx size; vy size; vz size]) in *.
  destruct (0 <? m)%float eqn:Hpos; eexists; exists m;
    (split; [reflexivity|]); repeat (split; [assumption|]);
    (split; [|reflexivity]).
  - intros _. reflexivity.
  - congruence.
Qed.

(** A box with a NaN extent is not empty: the size of an empty box is
    zero. *)
Lemma nan_size_not_empty (b : Box3) :
  no_nan (Box3_getSize b) = false -> Box3_isEmpty b = false.
Proof.
  unfold Box3_getSize. destruct (Box3_isEmpty b); [|reflexivity].
  intros H. vm_compute in H. discriminate.
Qed.

(** X19. When an extent of the bounding box is NaN, the box does not
    count as empty, the root keeps its scale, and the camera is put at
    (NaN, NaN, NaN) with a far plane of NaN: nothing of the model can be
    seen, and nothing is thrown. *)
Theorem nan_extent_blanks_the_view (st : View) :
  let size := Box3_getSize (setFromObject (simpleRoot st)) in
  no_nan size = false ->
  Box3_isEmpty (setFromObject (simpleRoot st)) = false /\
  exists st',
    frame st = Ok tt st' /\
    scale (simpleRoot st') = scale (simpleRoot st) /\
    camera st' = mkCamera (mkVec3 nan nan nan) 0.1 nan.
Proof.
  intros size Hn. pose proof (nan_size_not_empty _ Hn) as He.
  split; [exact He|]. apply negb_false_iff in Hn.
  unfold frame. cbv [bind get_state modify ret]. rewrite He. cbn [negb].
  fold size. rewrite (Math_max_nan _ _ _ Hn).
  eexists. split; [reflexivity|]. split; reflexivity.
Qed.

End MoreFrame.

(** * Loading the engine *)

Section FallbackFacts.

Context {network : Network}.

Lemma try_sources_skips pre errs rest lastErr console :
  Forall2 (fun s e => try_source s = inl e) pre errs ->
  try_sources (pre ++ rest) lastErr console
  = try_sources rest (from_option Some lastErr (last errs))
                (console ++ zip (three <$> pre) errs).
Proof.
  intros H. revert lastErr console.
  induction H as [|s e pre errs Hs _ IH]; intros lastErr console.
  - cbn. by rewrite app_nil_r.
  - cbn [app try_sources]. rewrite Hs, IH. rewrite fmap_cons.
    cbn [zip zip_with]. rewrite <- app_assoc. cbn [app]. f_equal.
    destruct errs as [|e' errs]; [reflexivity|].
    rewrite last_cons_cons.
    destruct (last (e' :: errs)) eqn:E; [reflexivity|].
    by apply last_None in E.
Qed.

(** X15. The engine and the controls are taken from the first source
    both of whose imports succeed, both from that one source: a source
    whose engine loads and whose controls do not is passed over as a
    whole.  Later sources are not asked, and the console gets one warning
    for each source passed over, in order, with its engine URL and its
    error. *)
Theorem first_working_source_is_used pre errs src post m1 m2 lastErr console :
  Forall2 (fun s e => try_source s = inl e) pre errs ->
  import (three src) = inr m1 ->
  import (controls src) = inr m2 ->
  try_sources (pre ++ src :: post) lastErr console
  = (inr (mkModules m1 (default VUndefined (m2 !! "OrbitControls"))),
     console ++ zip (three <$> pre) errs).
Proof.
  intros Hpre H1 H2. rewrite (try_sources_skips _ _ _ _ _ Hpre).
  cbn [try_sources]. unfold try_source. rewrite H1, H2. reflexivity.
Qed.

(** X16. When every source fails, what is thrown is the error of the
    last one, or the error "Failed to load Three.js from all CDNs" if
    that one is falsy or there was no source; what is thrown is never
    falsy, and the console holds one warning for each source. *)
Theorem failing_sources_rethrow_the_last_error srcs errs lastErr console :
  Forall2 (fun s e => try_source s = inl e) srcs errs ->
  let thrown := or_new_error (from_option Some lastErr (last errs)) in
  try_sources srcs lastErr console
  = (inl thrown, console ++ zip (three <$> srcs) errs) /\
  thrown_truthy thrown = true.
Proof.
  intros H thrown. split.
  - pose proof (try_sources_skips _ _ [] lastErr console H) as Hs.
    rewrite app_nil_r in Hs. exact Hs.
  - unfold thrown, or_new_error.
    destruct (from_option Some lastErr (last errs)) as [e|]; [|reflexivity].
    destruct (thrown_truthy e) eqn:He; [exact He|reflexivity].
Qed.

End FallbackFacts.

(** * Linking bones to their parents *)

Lemma link_bone_parent bones i entry links :
  nullish (def entry.2) = false ->
  Forall (fun l => l.2 < i) links ->
  link_bone bones i entry links
  = Ok tt (links ++ from_option (fun p => [(p, i)]) [] (parent_of bones i entry)).
Proof.
  intros Hd Hl. unfold link_bone, parent_of, Map_has. cbv [bind].
  rewrite get_ok by exact Hd.
  destruct (truthy _); cbn [andb]; [|by rewrite app_nil_r].
  destruct (Map_get _ bones) as [p|]; [|by rewrite app_nil_r].
  unfold Object3D_add.
  destruct (Nat.eqb i p); [by rewrite app_nil_r|].
  cbv [modify]. f_equal. cbn [from_option]. f_equal.
  apply filter_all. eapply Forall_impl; [exact Hl|]. cbn. lia.
Qed.

Lemma link_bones_from bones rest i links :
  Forall (fun e => nullish (def e.2) = false) rest ->
  Forall (fun l => l.2 < i) links ->
  for_each (zip (seq i (length rest)) rest)
           (fun ie => link_bone bones ie.1 ie.2) links
  = Ok tt (links ++ omap (fun ie => (fun p => (p, ie.1)) <$> parent_of bones ie.1 ie.2)
                         (zip (seq i (length rest)) rest)).
Proof.
  intros Hr. revert i links.
  induction Hr as [|e rest He _ IH]; intros i links Hl.
  - cbn. by rewrite app_nil_r.
  - cbn [length seq zip zip_with for_each omap]. unfold bind. cbn [fst snd].
    rewrite link_bone_parent by assumption.
    rewrite IH.
    + rewrite <- app_assoc. do 2 f_equal.
      cbn [omap list_omap fst snd].
      destruct (parent_of bones i e); reflexivity.
    + apply Forall_app. split.
      * eapply Forall_impl; [exact Hl|]. cbn. lia.
      * destruct (parent_of bones i e); repeat constructor.
Qed.

(** X17. On the map the first loop builds, the loop that links bones to
    their parents throws nothing, and it makes exactly these links, in
    the order of the map: each bone whose [parent] is truthy and is the
    name of another bone of the map becomes a child of that bone.  A bone
    that names itself, or a bone that is not in the map, is left without
    a parent, and no bone gets two. *)
Theorem bones_are_linked_to_their_named_parents
    (items : list value) (bones : list (value * BoneEntry)) :
  collect_bones items [] tt = Ok bones tt ->
  link_bones bones []
  = Ok tt (omap (fun ie => (fun p => (p, ie.1)) <$> parent_of bones ie.1 ie.2)
                (zip (seq 0 (length bones)) bones)).
Proof.
  rewrite collect_bones_table.
  destruct (forallb _ items) eqn:Hi; [|discriminate]. intros [= <-].
  unfold link_bones. rewrite link_bones_from; [reflexivity| |constructor].
  apply bone_table_defs; [exact Hi|constructor].
Qed.

(** * The further properties at concrete inputs *)

Example loads_examples :
  loads string_geometry_doc = true /\
  loads (model_json 64 64 repeated_name_bones) = true /\
  loads null_cube_doc = false /\
  loads empty_geometry_doc = false /\
  loads (document (VObj {[ "bones" := VNum 5 ]})) = false /\
  loads (document (VObj {[ "bones" := VArr [VObj {[ "cubes" := VStr "ab" ]}] ]}))
  = true.
Proof. vm_compute. repeat split. Qed.

Example repeated_name_example :
  effective_bones repeated_name_bones
  = [("arm", [scenario_3]); ("leg", [scenario_2])].
Proof. vm_compute. reflexivity. Qed.

Lemma null_cube_shows_nothing :
  exists st',
    @loadModel numeric_only sample_engine true true null_cube_doc boot_view
    = Throw TypeError st' /\
    cubeCount st' = 2 /\
    length (children (simpleRoot st')) = 1 /\
    scene st' = [] /\ camera st' = camera boot_view /\
    controls_target st' = controls_target boot_view.
Proof.
  eexists. split; [vm_compute; reflexivity|]. do 2 (split; [reflexivity|]).
  eapply (@failed_load_shows_nothing numeric_only sample_engine true true
            null_cube_doc boot_view TypeError).
  vm_compute. reflexivity.
Defined.

Lemma scenario_1_adds_one_root :
  exists st',
    @loadModel numeric_only sample_engine true true
      (model_json 64 64 [("body", [scenario_1])]) boot_view = Ok tt st' /\
    scene st' = scene boot_view ++ [simpleRoot st'] /\
    cubeCount st' = length (children (simpleRoot st')).
Proof.
  eexists. split; [vm_compute; reflexivity|].
  apply (@finished_load_adds_one_root numeric_only sample_engine
           (model_json 64 64 [("body", [scenario_1])]) boot_view).
  vm_compute. reflexivity.
Defined.

Lemma two_bones_in_order :
  exists st',
    @loadModel numeric_only sample_engine true true
      (model_json 64 64 [("body", [scenario_1; scenario_2]);
                         ("head", [scenario_3])]) boot_view = Ok tt st' /\
    Forall2 (fun c k => @cube_object numeric_only unit (VNum 64) (VNum 64)
                          (cube_json c) tt = Ok k tt)
            [scenario_1; scenario_2; scenario_3]
            (children (simpleRoot st')).
Proof.
  apply (@every_cube_gives_one_box_in_order numeric_only sample_engine 64 64
           [("body", [scenario_1; scenario_2]); ("head", [scenario_3])]
           boot_view).
  - apply (bool_decide_unpack _). vm_compute. reflexivity.
  - reflexivity.
  - reflexivity.
Defined.

Lemma number_as_cube :
  @cube_object numeric_only unit (VNum 64) (VNum 64) (VNum 5) tt
  = Ok (BareMesh (mkMesh (BoxGeometry (VNum 1) (VNum 1) (VNum 1))
                         (vec3_values (mkVec3 0.5 0.5 0.5)%float))) tt.
Proof.
  apply (@cube_without_fields_is_unit_box numeric_only unit); reflexivity.
Defined.

Lemma scenario_2_has_48_uv_numbers :
  Forall has_48_uvs
    (children (simpleRoot (store_of
       (@loadModel numeric_only sample_engine true true
          (model_json 64 64 [("body", [scenario_2])]) boot_view)))).
Proof.
  eapply (@every_box_has_48_uv_numbers numeric_only sample_engine
            (model_json 64 64 [("body", [scenario_2])]) boot_view).
  vm_compute. reflexivity.
Defined.


Lemma plain_scenario_2_keeps_default_uvs :
  Forall has_default_uvs
    (children (simpleRoot (store_of
       (@Plain.loadModel numeric_only sample_engine true true
          (model_json 64 64 [("body", [scenario_2])]) boot_view)))).
Proof.
  eapply (@plain_copy_keeps_default_uvs numeric_only sample_engine true true
            (model_json 64 64 [("body", [scenario_2])]) boot_view).
  vm_compute. reflexivity.
Defined.

Lemma slab_is_scaled_by_its_depth :
  exists st' m,
    @frame sample_engine slab_view = Ok tt st' /\
    (m = 2 \/ m = 4 \/ m = 6)%float /\
    (2 <=? m)%float = true /\ (4 <=? m)%float = true /\
    (6 <=? m)%float = true /\
    ((0 <? m)%float = true ->
     scale (simpleRoot st') = (mkVec3 (60 / m) (60 / m) (60 / m))%float) /\
    camera_position (camera st')
    = (mkVec3 (2 * m * 0.8) (2 * m * 0.6) (2 * m * 1.2))%float.
Proof.
  apply (@model_is_scaled_by_its_largest_extent sample_engine slab_view);
    vm_compute; reflexivity.
Defined.

Lemma skypack_fallback :
  @loadThreeWithFallbacks skypack_only
  = (inr (mkModules {[ "REVISION" := VStr "154" ]}
                    (VStr "class OrbitControls")),
     [("https://unpkg.com/three@0.154.0/build/three.module.js",
       ErrorObject TypeError);
      ("https://cdn.jsdelivr.net/npm/three@0.154.0/build/three.module.js",
       ErrorObject TypeError)]).
Proof.
  refine (@first_working_source_is_used skypack_only
            [mkSource "https://unpkg.com/three@0.154.0/build/three.module.js"
               "https://unpkg.com/three@0.154.0/examples/jsm/controls/OrbitControls.js";
             mkSource "https://cdn.jsdelivr.net/npm/three@0.154.0/build/three.module.js"
               "https://cdn.jsdelivr.net/npm/three@0.154.0/examples/jsm/controls/OrbitControls.js"]
            [ErrorObject TypeError; ErrorObject TypeError]
            (mkSource "https://cdn.skypack.dev/three@0.154.0"
               "https://cdn.skypack.dev/three@0.154.0/examples/jsm/controls/OrbitControls.js")
            [] _ _ None [] _ eq_refl eq_refl).
  repeat constructor.
Defined.

Lemma offline_failure :
  @loadThreeWithFallbacks offline
  = (inl (ErrorObject TypeError),
     [("https://unpkg.com/three@0.154.0/build/three.module.js",
       ErrorObject TypeError);
      ("https://cdn.jsdelivr.net/npm/three@0.154.0/build/three.module.js",
       ErrorObject TypeError);
      ("https://cdn.skypack.dev/three@0.154.0", ErrorObject TypeError)]) /\
  thrown_truthy (ErrorObject TypeError) = true.
Proof.
  refine (@failing_sources_rethrow_the_last_error offline sources
            [ErrorObject TypeError; ErrorObject TypeError;
             ErrorObject TypeError]
            None [] _).
  repeat constructor.
Defined.

Lemma head_is_linked_to_body :
  link_bones (bone_table linked_bones) [] = Ok tt [(0, 1)].
Proof.
  apply (bones_are_linked_to_their_named_parents linked_bones
           (bone_table linked_bones)).
  vm_compute. reflexivity.
Defined.


Lemma nan_box_blanks_the_view :
  Box3_isEmpty (@setFromObject nan_box_engine (simpleRoot boot_view)) = false /\
  exists st',
    @frame nan_box_engine boot_view = Ok tt st' /\
    scale (simpleRoot st') = (mkVec3 1 1 1)%float /\
    camera st' = mkCamera (mkVec3 nan nan nan) 0.1 nan.
Proof.
  apply (@nan_extent_blanks_the_view nan_box_engine boot_view); reflexivity.
Defined.

(** ** Single precision and strings at concrete inputs *)

Example Math_fround_examples :
  Math_fround 0.3 = 0.30000001192092896%float /\
  Math_fround (1 / 64) = (1 / 64)%float /\
  Math_fround 16777217 = 16777216%float /\
  Math_fround 1e40 = infinity /\
  Math_fround (-0) = (-0)%float /\
  Math_fround nan = nan.
Proof. vm_compute. repeat split. Qed.

(** With a texture of 10 by 10 the quotients are not single-precision
    numbers: the +X face holds their roundings. *)
Example texture_10_is_stored_in_single_precision :
  exists child,
    @cube_object numeric_only unit (VNum 10) (VNum 10)
      (cube_json texture_10_cube) tt = Ok child tt /\
    take 8 <$> attributes_uv (geometry (child_mesh child))
    = Some [0.30000001192092896; 0.8999999761581421; 0.20000000298023224;
            0.8999999761581421; 0.20000000298023224; 0.800000011920929;
            0.30000001192092896; 0.800000011920929]%float.
Proof. eexists. split; vm_compute; reflexivity. Qed.

Example string_examples :
  chars "a€b" = [VStr "a"; VStr "€"; VStr "b"] /\
  item (VStr "é") 0 = VStr "é" /\
  item (VStr "é") 1 = VUndefined /\
  length_is (VStr "😀") 2 = true.
Proof. vm_compute. repeat split. Qed.

Example one_character_gives_one_box :
  exists st,
    @loadModel numeric_only sample_engine true true euro_cubes_doc boot_view
    = Ok tt st /\
    cubeCount st = 1.
Proof. eexists. split; vm_compute; reflexivity. Qed.
